(** * sub-agents-mcp: agent loading, tool registry and tool execution

    A shallow embedding of the TypeScript sources
      - src/agents/AgentManager.ts        (module [AgentManager])
      - src/tools/DynamicAgentTools.ts    (module [DynamicAgentTool])
      - src/server/McpServer.ts           (module [McpServer])
    together with the small part of the JavaScript runtime they rely on
    (module [Js]): strings as sequences of UTF-16 code units, the
    whitespace classes behind [trim] and [\s], dynamically typed values,
    insertion-ordered [Map]s and exceptions. *)

From Stdlib Require Import List ZArith NArith Bool Lia String Ascii DecimalString.
Import ListNotations.

Set Implicit Arguments.
Set Warnings "-register-all".
Local Open Scope Z_scope.

(* ================================================================== *)
(** ** The JavaScript runtime fragment                                  *)
(* ================================================================== *)

Module Js.

(** A JavaScript string is a sequence of 16-bit code units; [length],
    [trim], [replace] with a non-unicode regular expression and the
    comparison operators all work on code units. *)
Definition char16 := N.
Definition jstring := list char16.

(** String literals of the source (all of them ASCII). *)
Definition str (s : string) : jstring :=
  List.map N_of_ascii (list_ascii_of_string s).

(** [a === b] on strings. *)
Fixpoint eqs (a b : jstring) : bool :=
  match a, b with
  | [], [] => true
  | x :: a', y :: b' => (N.eqb x y && eqs a' b')%bool
  | _, _ => false
  end.

(** The line feed. *)
Definition LF : char16 := 10%N.

(** [s.length] *)
Definition len (s : jstring) : Z := Z.of_nat (List.length s).

Definition in_range (lo hi c : N) : bool := (N.leb lo c && N.leb c hi)%bool.

(** [\w] without the unicode or ignore-case flag: [A-Za-z0-9_]. *)
Definition is_word (c : char16) : bool :=
  (in_range 97 122 c || in_range 65 90 c || in_range 48 57 c || N.eqb c 95)%bool.

(** LineTerminator: LF, CR, U+2028, U+2029.  The regular expression
    atom [.] matches every code unit but these. *)
Definition is_line_terminator (c : char16) : bool :=
  (N.eqb c 10 || N.eqb c 13 || N.eqb c 8232 || N.eqb c 8233)%bool.

(** WhiteSpace and LineTerminator of ECMAScript: the code units matched
    by [\s] and removed by [String.prototype.trim]. *)
Definition is_space (c : char16) : bool :=
  (in_range 9 13 c || N.eqb c 32 || N.eqb c 160 || N.eqb c 5760
   || in_range 8192 8202 c || N.eqb c 8232 || N.eqb c 8233
   || N.eqb c 8239 || N.eqb c 8287 || N.eqb c 12288 || N.eqb c 65279)%bool.

Fixpoint trimStart (s : jstring) : jstring :=
  match s with
  | c :: r => if is_space c then trimStart r else s
  | [] => []
  end.

Fixpoint trimEnd (s : jstring) : jstring :=
  match s with
  | [] => []
  | c :: r =>
      match trimEnd r with
      | [] => if is_space c then [] else [c]
      | r' => c :: r'
      end
  end.

(** [s.trim()] *)
Definition trim (s : jstring) : jstring := trimEnd (trimStart s).

(** [s.startsWith(p)] *)
Fixpoint startsWith (p s : jstring) : bool :=
  match p, s with
  | [], _ => true
  | a :: p', b :: s' => (N.eqb a b && startsWith p' s')%bool
  | _ :: _, [] => false
  end.

(** [s.endsWith(p)] *)
Definition endsWith (p s : jstring) : bool := startsWith (rev p) (rev s).

(** [s.includes(p)] *)
Fixpoint includes (p s : jstring) : bool :=
  (startsWith p s ||
   match s with
   | [] => false
   | _ :: r => includes p r
   end)%bool.

(** [s.slice(1, -1)]: drop the first and the last code unit; the empty
    string when fewer than two code units are there. *)
Definition slice_1_m1 (s : jstring) : jstring :=
  match s with
  | [] => []
  | _ :: r => removelast r
  end.

(** [s.split('\n')]: never the empty list. *)
Fixpoint split_lines (s : jstring) : list jstring :=
  match s with
  | [] => [[]]
  | c :: r =>
      if N.eqb c 10 then [] :: split_lines r
      else match split_lines r with
           | l :: ls => (c :: l) :: ls
           | [] => [[c]]
           end
  end.

(** Decimal rendering of an array index, as a template literal does. *)
Definition dec (n : nat) : jstring := str (NilZero.string_of_uint (Nat.to_uint n)).

(** Dynamically typed values.  Numbers are the integers the program
    handles (exit codes, milliseconds, counters) plus the two
    non-finite results a division by zero can give. *)
Inductive value :=
| JUndefined
| JNull
| JBool (b : bool)
| JNum (z : Z)
| JNaN
| JInfinity
| JString (s : jstring)
| JArray (xs : list value)
| JObject (fields : list (jstring * value)).

(** ToBoolean *)
Definition truthy (v : value) : bool :=
  match v with
  | JUndefined | JNull | JNaN => false
  | JBool b => b
  | JNum z => negb (z =? 0)
  | JInfinity => true
  | JString s => match s with [] => false | _ => true end
  | JArray _ | JObject _ => true
  end.

(** [typeof v === 'object'] (true of [null], arrays and objects). *)
Definition typeof_object (v : value) : bool :=
  match v with
  | JNull | JArray _ | JObject _ => true
  | _ => false
  end.

Fixpoint assoc {A} (k : jstring) (l : list (jstring * A)) : option A :=
  match l with
  | [] => None
  | (k', v) :: r => if eqs k' k then Some v else assoc k r
  end.

(** [v[k]] for a named (non-index) key: [undefined] when the property
    is not there; arrays have no such own property. *)
Definition get_prop (v : value) (k : jstring) : value :=
  match v with
  | JObject fields =>
      match assoc k fields with Some x => x | None => JUndefined end
  | _ => JUndefined
  end.

(** [Math.round(a / b)] on integers: the quotient rounded half up;
    [NaN] for 0/0 and [Infinity] for a positive number over 0. *)
Definition round_div (a b : Z) : value :=
  if b =? 0 then (if a =? 0 then JNaN else JInfinity)
  else JNum ((2 * a + b) / (2 * b)).

(** What a [throw] carries: an [Error] object with its message, or
    some other value ([error instanceof Error] is false), of which the
    program only ever takes [String(error)]. *)
Inductive thrown :=
| ErrorObj (message : jstring)
| NonError (rendering : jstring).

(** The outcome of a call that may throw (or of an awaited promise
    that may reject). *)
Inductive result (A : Type) :=
| Ok (a : A)
| Throw (e : thrown).
Arguments Ok {A} a.
Arguments Throw {A} e.

Definition bind {A B} (r : result A) (k : A -> result B) : result B :=
  match r with
  | Ok a => k a
  | Throw e => Throw e
  end.

(** [throw new Error(msg)] *)
Definition throwError {A} (msg : string) : result A := Throw (ErrorObj (str msg)).

(** An insertion-ordered [Map<string, V>]: [set] on a key already
    there replaces the value and keeps the key's position; a fresh key
    goes to the end. *)
Module Map.
Definition t (V : Type) := list (jstring * V).

Definition empty {V} : t V := [].

Definition get {V} (k : jstring) (m : t V) : option V := assoc k m.

Definition has {V} (k : jstring) (m : t V) : bool :=
  match get k m with Some _ => true | None => false end.

Fixpoint set {V} (k : jstring) (v : V) (m : t V) : t V :=
  match m with
  | [] => [(k, v)]
  | (k', v') :: r =>
      if eqs k' k then (k', v) :: r else (k', v') :: set k v r
  end.

Definition size {V} (m : t V) : Z := Z.of_nat (List.length m).
Definition entries {V} (m : t V) : list (jstring * V) := m.
Definition values {V} (m : t V) : list V := List.map snd m.
Definition keys {V} (m : t V) : list jstring := List.map fst m.
End Map.

End Js.

Declare Scope js_scope.
Delimit Scope js_scope with js.
Notation "x <- c1 ;; c2" :=
  (Js.bind c1 (fun x => c2))
    (at level 61, c1 at next level, right associativity) : js_scope.
Local Open Scope js_scope.

(* ================================================================== *)
(** ** src/agents/AgentManager.ts                                      *)
(* ================================================================== *)

Module AgentManager.
Import Js.

(** The metadata object [parseFrontmatter] fills in.  [agentType] is
    kept as the string the parser stored. *)
Record Frontmatter := mkFrontmatter {
  fm_name : option jstring;
  fm_description : option jstring;
  fm_tools : option jstring;
  fm_model : option jstring;
  fm_color : option jstring;
  fm_agentType : option jstring
}.

Definition emptyFrontmatter : Frontmatter :=
  mkFrontmatter None None None None None None.

(** [AgentDefinition] (src/types/AgentDefinition.ts).  [tools] is
    declared [string[]] but holds whatever value the loader puts there,
    hence a dynamically typed [value]; [lastModified] is the file's
    modification time in milliseconds. *)
Record AgentDefinition := mkAgentDefinition {
  name : jstring;
  description : jstring;
  content : jstring;
  filePath : jstring;
  lastModified : Z;
  model : option jstring;
  color : option jstring;
  tools : option value;
  autoApprovalMode : option bool;
  agentType : option jstring
}.

(** One entry of the agents directory: the name [readdir] lists, the
    path [path.join(agentsDir, file)] (whose [path.basename] is the
    listed name), and what [readFile] and [stat] give for it. *)
Record FileEntry := mkFileEntry {
  fileName : jstring;
  entryPath : jstring;
  readFile : result jstring;
  stat_mtime : result Z
}.

(** The configured directory and the outcome of [readdir] on it. *)
Record FileSystem := mkFileSystem {
  agentsDir : jstring;
  readdir : result (list FileEntry)
}.

(** *** The two regular expressions of [parseFrontmatter] *)

(** Longest prefix of code units satisfying [p], and the rest. *)
Fixpoint span (p : char16 -> bool) (s : jstring) : jstring * jstring :=
  match s with
  | c :: r => if p c then let (a, b) := span p r in (c :: a, b) else ([], s)
  | [] => ([], [])
  end.

(** The end of either delimiter, [\s*\n], and the text after it, at
    the start of [s]: the greedy [\s*] gives back
    code units until a LF follows, so the LF matched is the last one of
    the leading run of white space; the group is everything after it.
    [best] is the text after the last LF seen so far. *)
Fixpoint after_last_lf (s : jstring) (best : option jstring) : option jstring :=
  match s with
  | c :: r =>
      if is_space c
      then after_last_lf r (if N.eqb c 10 then Some r else best)
      else best
  | [] => best
  end.

(** The closing delimiter [\n---\s*\n] and the text after it (the
    second group), at the start of [s]. *)
Definition try_close (s : jstring) : option jstring :=
  if startsWith (LF :: str "---") s then after_last_lf (skipn 4 s) None else None.

(** The lazy first group, then the closing delimiter and the second
    group, at the start of [s]: the lazy
    group grows one code unit at a time until the closing delimiter
    matches. *)
Fixpoint find_close (s : jstring) : option (jstring * jstring) :=
  match try_close s with
  | Some body => Some ([], body)
  | None =>
      match s with
      | [] => None
      | c :: r =>
          match find_close r with
          | Some (g1, g2) => Some (c :: g1, g2)
          | None => None
          end
      end
  end.

(** The places where the LF of the opening "---\s*\n" can sit: the text
    after each LF of the white space following the three hyphens, in
    order of occurrence. *)
Fixpoint open_candidates (s : jstring) : list jstring :=
  match s with
  | c :: r =>
      if is_space c
      then (if N.eqb c 10 then [r] else []) ++ open_candidates r
      else []
  | [] => []
  end.

Fixpoint first_some {A B} (f : A -> option B) (l : list A) : option B :=
  match l with
  | [] => None
  | a :: r => match f a with Some b => Some b | None => first_some f r end
  end.

(** [content.match(frontmatterRegex)]; the expression reads: start of
    text, [---\s*\n], a lazy group of any code units, [\n---\s*\n], a
    greedy group of any code units, end of text.  These are the two
    groups of the first match in backtracking order (the greedy [\s*]
    tries its longest extent first). *)
Definition match_frontmatter (content : jstring) : option (jstring * jstring) :=
  if startsWith (str "---") content
  then first_some find_close (rev (open_candidates (skipn 3 content)))
  else None.

(** [line.match(/^(\w+):\s*(.+)$/)]: the key is the longest run of word
    characters and must be followed by a colon; the value is what
    follows the white space after the colon, or, when nothing follows,
    the last white-space code unit, which the greedy [\s*] gives back.
    [.] matches no line terminator, so a value containing one makes the
    whole match fail. *)
Definition match_key_value (line : jstring) : option (jstring * jstring) :=
  let (key, r1) := span is_word line in
  match key, r1 with
  | _ :: _, c :: r2 =>
      if N.eqb c 58 then
        let (w, v) := span is_space r2 in
        match v with
        | _ :: _ =>
            if forallb (fun x => negb (is_line_terminator x)) v
            then Some (key, v) else None
        | [] =>
            match rev w with
            | l :: _ => if is_line_terminator l then None else Some (key, [l])
            | [] => None
            end
        end
      else None
  | _, _ => None
  end.

(** Removal of one pair of surrounding quotes. *)
Definition strip_quotes (v : jstring) : jstring :=
  if ((startsWith (str "'") v && endsWith (str "'") v)
      || (startsWith [34%N] v && endsWith [34%N] v))%bool
  then slice_1_m1 v else v.

(** The chain of [if (key === ...)] that stores a field. *)
Definition store_field (fm : Frontmatter) (key v : jstring) : Frontmatter :=
  let (n, d, t, m, c, a) := fm in
  if eqs key (str "name") then mkFrontmatter (Some v) d t m c a
  else if eqs key (str "description") then mkFrontmatter n (Some v) t m c a
  else if eqs key (str "tools") then mkFrontmatter n d (Some v) m c a
  else if eqs key (str "model") then mkFrontmatter n d t (Some v) c a
  else if eqs key (str "color") then mkFrontmatter n d t m (Some v) a
  else if eqs key (str "agentType") then
    if (eqs v (str "cursor") || eqs v (str "claude"))%bool
    then mkFrontmatter n d t m c (Some v)
    else fm
  else fm.

(** The body of the loop over the front-matter lines. *)
Definition parse_line (fm : Frontmatter) (line : jstring) : Frontmatter :=
  match match_key_value line with
  | Some (k, v) =>
      let key := trim k in
      let v' := trim v in
      match key, v' with
      | _ :: _, _ :: _ => store_field fm key (strip_quotes v')
      | _, _ => fm
      end
  | None => fm
  end.

(** [parseFrontmatter(content)]: the metadata and [bodyContent]
    ([None] is [null]). *)
Definition parseFrontmatter (content : jstring) : Frontmatter * option jstring :=
  match match_frontmatter content with
  | None => (emptyFrontmatter, None)
  | Some (frontmatterText, bodyContent) =>
      let fm :=
        match frontmatterText with
        | [] => emptyFrontmatter
        | _ :: _ => fold_left parse_line (split_lines frontmatterText) emptyFrontmatter
        end
      in (fm, Some bodyContent)
  end.

(** [line.replace(/^#+\s*/, '').trim()] *)
Definition strip_heading (line : jstring) : jstring :=
  trim (snd (span is_space (snd (span (N.eqb 35) line)))).

(** [extractDescription(content)] *)
Definition extractDescription (content : jstring) : jstring :=
  let lines := filter (fun l => match trim l with [] => false | _ => true end)
                      (split_lines content) in
  match find (startsWith (str "#")) lines with
  | Some line => strip_heading line
  | None =>
      match lines with
      | l :: _ => trim l
      | [] => str "Agent definition"
      end
  end.

(** [a || b] on strings, [a] possibly absent. *)
Definition or_else (a : option jstring) (b : jstring) : jstring :=
  match a with
  | Some ((_ :: _) as s) => s
  | _ => b
  end.

(** [...(x && { field: x })]: the field is there when [x] is a
    non-empty string. *)
Definition when_truthy (a : option jstring) : option jstring :=
  match a with
  | Some ((_ :: _) as s) => Some s
  | _ => None
  end.

(** [fileName.replace(/\.(md|txt)$/, '')] *)
Definition strip_extension (f : jstring) : jstring :=
  if endsWith (str ".md") f then firstn (List.length f - 3) f
  else if endsWith (str ".txt") f then firstn (List.length f - 4) f
  else f.

(** [loadAgentFromFile(filePath)]: [None] is [undefined], returned when
    reading the file or its status fails. *)
Definition loadAgentFromFile (f : FileEntry) : option AgentDefinition :=
  match readFile f, stat_mtime f with
  | Ok text, Ok mtime =>
      let (frontmatter, bodyContent) := parseFrontmatter text in
      let fileBaseName := strip_extension (fileName f) in
      let agentName := or_else (fm_name frontmatter) fileBaseName in
      let body := or_else bodyContent text in
      let descr := or_else (fm_description frontmatter) (extractDescription body) in
      Some {| name := agentName;
              description := descr;
              content := body;
              filePath := entryPath f;
              lastModified := mtime;
              model := when_truthy (fm_model frontmatter);
              color := when_truthy (fm_color frontmatter);
              tools := option_map JString (when_truthy (fm_tools frontmatter));
              autoApprovalMode := None;
              agentType := when_truthy (fm_agentType frontmatter) |}
  | _, _ => None
  end.

(** The loop of [loadAgentsFromDirectory] over the agent files. *)
Fixpoint load_files (files : list FileEntry) (agents : Map.t AgentDefinition)
  : Map.t AgentDefinition :=
  match files with
  | [] => agents
  | f :: r =>
      match loadAgentFromFile f with
      | Some agent => load_files r (Map.set (name agent) agent agents)
      | None => load_files r agents
      end
  end.

(** [loadAgentsFromDirectory()] *)
Definition loadAgentsFromDirectory (fs : FileSystem) : result (Map.t AgentDefinition) :=
  match readdir fs with
  | Ok files =>
      let agentFiles :=
        filter (fun f => (endsWith (str ".md") (fileName f)
                          || endsWith (str ".txt") (fileName f))%bool) files in
      Ok (load_files agentFiles Map.empty)
  | Throw _ =>
      Throw (ErrorObj (str "Failed to load agents from directory: " ++ agentsDir fs))
  end.

(** [listAgents()] *)
Definition listAgents (fs : FileSystem) : result (list AgentDefinition) :=
  agents <- loadAgentsFromDirectory fs ;;
  Ok (Map.values agents).

(** The class [invalidChars] of [getAgent]: the double quote, the
    fourteen punctuation marks below and white space. *)
Definition is_forbidden_char (c : char16) : bool :=
  (existsb (N.eqb c) (34%N :: str "<>:/\|?*;`$()&") || is_space c)%bool.

Definition is_control_char (c : char16) : bool :=
  (N.leb c 31 || N.eqb c 127)%bool.

(** [getAgent(name)] *)
Definition getAgent (fs : FileSystem) (nm : jstring) : result (option AgentDefinition) :=
  match nm with
  | [] => throwError "Invalid agent name: agent name is required"
  | _ :: _ =>
      if len (trim nm) =? 0
      then throwError "Invalid agent name: empty agent name not allowed"
      else if len nm >? 255
      then throwError "Invalid agent name: too long agent name"
      else if existsb is_forbidden_char nm
      then throwError "Invalid agent name: forbidden characters detected"
      else if existsb is_control_char nm
      then throwError "Invalid agent name: forbidden characters detected"
      else if (includes (str "..") nm || includes (str "./") nm
               || includes (str ".\") nm)%bool
      then throwError "Invalid agent name: path traversal attempt detected"
      else
        agents <- loadAgentsFromDirectory fs ;;
        Ok (Map.get nm agents)
  end.

End AgentManager.

(* ================================================================== *)
(** ** src/tools/DynamicAgentTools.ts                                  *)
(* ================================================================== *)

Module DynamicAgentTool.
Import Js.

Definition DEFAULT_OUTPUT_INSTRUCTIONS : jstring :=
  str "Provide a brief summary of what you accomplished or failed to do, "
  ++ str "and suggest potential next steps if necessary.".

Record McpTextContent := mkText {
  type_ : jstring;
  text : jstring
}.

Record McpToolResponse := mkResponse {
  content : list McpTextContent;
  isError : bool;
  structuredContent : Map.t value
}.

(** What [validateParams] returns; an absent optional field is [None]. *)
Record DynamicAgentParams := mkParams {
  prompt : jstring;
  output_instructions : option jstring;
  cwd : option jstring;
  extra_args : option (list jstring)
}.

(** [ExecutionParams] (src/types/ExecutionParams.ts). *)
Record ExecutionParams := mkExecutionParams {
  ep_agent : jstring;
  ep_prompt : jstring;
  ep_cwd : option jstring;
  ep_extra_args : option (list jstring);
  ep_agentType : option jstring;
  ep_model : option jstring
}.

(** [AgentExecutionResult], as [formatExecutionResponse] reads it:
    [hasResult] may be missing ([None]); [resultJson] is [JUndefined]
    when missing. *)
Record AgentExecutionResult := mkExecResult {
  stdout : jstring;
  stderr : jstring;
  exitCode : Z;
  executionTime : Z;
  hasResult : option bool;
  resultJson : value
}.

Record ExecutionStats := mkStats {
  count : Z;
  totalTime : Z;
  lastUsed : Z
}.

(** The fields of a [DynamicAgentTool] instance ([inputSchema] is the
    same constant for every instance and is given below). *)
Record tool := mkTool {
  name : jstring;
  description : jstring;
  agentName : jstring;
  executionStats : ExecutionStats
}.

(** The character class [a-zA-Z0-9_-] of [sanitizeToolName]. *)
Definition is_tool_char (c : char16) : bool :=
  (in_range 97 122 c || in_range 65 90 c || in_range 48 57 c
   || N.eqb c 95 || N.eqb c 45)%bool.

(** [agentName.replace(/[^a-zA-Z0-9_-]/g, '_')]: the global replace
    visits every code unit once. *)
Definition replace_invalid (s : jstring) : jstring :=
  List.map (fun c => if is_tool_char c then c else 95%N) s.

(** [sanitizeToolName(agentName)] *)
Definition sanitizeToolName (agentName : jstring) : jstring :=
  str "agent_" ++ replace_invalid agentName.

Definition inputSchema : value :=
  let prop descr :=
    JObject [(str "type", JString (str "string")); (str "description", JString descr)] in
  JObject
    [(str "type", JString (str "object"));
     (str "properties",
      JObject
        [(str "prompt",
          prop (str "Task description or instructions for the agent to execute"));
         (str "output_instructions",
          prop
            (str "Optional instructions for formatting the agent's response (default: "
             ++ [34%N] ++ DEFAULT_OUTPUT_INSTRUCTIONS ++ [34%N] ++ str ")"));
         (str "cwd",
          prop (str "Working directory path for agent execution context (optional)"));
         (str "extra_args",
          JObject
            [(str "type", JString (str "array"));
             (str "items", JObject [(str "type", JString (str "string"))]);
             (str "description",
              JString (str "Additional configuration parameters for agent execution (optional)"))])]);
     (str "required", JArray [JString (str "prompt")])].

(** The constructor; [now] is the clock reading of [new Date()]. *)
Definition new (now : Z) (agentName agentDescription : jstring) : tool :=
  {| name := sanitizeToolName agentName;
     description := agentDescription;
     agentName := agentName;
     executionStats := mkStats 0 0 now |}.

(** *** [validateParams] *)

Definition validate_output_instructions (v : value) : result (option jstring) :=
  match v with
  | JUndefined => Ok None
  | JString s =>
      if len s >? 5000
      then throwError "output_instructions too long (max 5,000 characters)"
      else Ok (Some s)
  | _ => throwError "output_instructions parameter must be a string if provided"
  end.

Definition validate_cwd (v : value) : result (option jstring) :=
  match v with
  | JUndefined => Ok None
  | JString s =>
      if len s >? 1000
      then throwError "Working directory path too long (max 1000 characters)"
      else if (includes (str "..") s || includes [0%N] s)%bool
      then throwError "Invalid working directory path"
      else Ok (Some s)
  | _ => throwError "CWD parameter must be a string if provided"
  end.

(** The loop over [extra_args.entries()]. *)
Fixpoint validate_args (index : nat) (args : list value) : result (list jstring) :=
  match args with
  | [] => Ok []
  | JString arg :: rest =>
      if len arg >? 1000
      then Throw (ErrorObj (str "Extra argument at index " ++ dec index
                            ++ str " too long (max 1000 characters)"))
      else
        r <- validate_args (S index) rest ;;
        Ok (arg :: r)
  | _ :: _ =>
      Throw (ErrorObj (str "Extra argument at index " ++ dec index
                       ++ str " must be a string"))
  end.

Definition validate_extra_args (v : value) : result (option (list jstring)) :=
  match v with
  | JUndefined => Ok None
  | JArray args =>
      if Z.of_nat (List.length args) >? 20
      then throwError "Too many extra arguments (max 20 allowed)"
      else
        r <- validate_args 0 args ;;
        Ok (Some r)
  | _ => throwError "Extra args parameter must be an array if provided"
  end.

Definition is_string (v : value) : bool :=
  match v with JString _ => true | _ => false end.

Definition validateParams (params : value) : result DynamicAgentParams :=
  if (negb (truthy params) || negb (typeof_object params))%bool
  then throwError "Invalid parameters: expected object"
  else
    let p := get_prop params (str "prompt") in
    if (negb (truthy p) || negb (is_string p))%bool
    then throwError "Prompt parameter is required and must be a string"
    else
      let prompt := trim (match p with JString s => s | _ => [] end) in
      if eqs prompt []
      then throwError "Invalid prompt parameter: cannot be empty"
      else if len prompt >? 50000
      then throwError "Prompt too long (max 50,000 characters)"
      else
        oi <- validate_output_instructions (get_prop params (str "output_instructions")) ;;
        wd <- validate_cwd (get_prop params (str "cwd")) ;;
        ea <- validate_extra_args (get_prop params (str "extra_args")) ;;
        Ok {| prompt := prompt;
              output_instructions := oi;
              cwd := wd;
              extra_args := ea |}.

(** *** Responses *)

Inductive Status := success | partial | error.

Definition status_string (s : Status) : jstring :=
  match s with
  | success => str "success"
  | partial => str "partial"
  | error => str "error"
  end.

(** [result.hasResult === true] *)
Definition hasResult_true (r : AgentExecutionResult) : bool :=
  match hasResult r with Some true => true | _ => false end.

Definition isSuccess (r : AgentExecutionResult) : bool :=
  ((exitCode r =? 0) || ((exitCode r =? 143) && hasResult_true r))%bool.

Definition isPartialSuccess (r : AgentExecutionResult) : bool :=
  ((exitCode r =? 124) && hasResult_true r)%bool.

(** [isSuccess ? 'success' : isPartialSuccess ? 'partial' : 'error'] *)
Definition status_of (r : AgentExecutionResult) : Status :=
  if isSuccess r then success
  else if isPartialSuccess r then partial
  else error.

(** [result.stdout || result.stderr || 'No output'] *)
Definition contentText (r : AgentExecutionResult) : jstring :=
  match stdout r with
  | _ :: _ => stdout r
  | [] => match stderr r with
          | _ :: _ => stderr r
          | [] => str "No output"
          end
  end.

(** [if (x) obj[k] = x] for an optional string. *)
Definition set_if_string (k : string) (x : option jstring) (o : Map.t value) : Map.t value :=
  match x with
  | Some ((_ :: _) as s) => Map.set (str k) (JString s) o
  | _ => o
  end.

Definition formatExecutionResponse (t : tool) (r : AgentExecutionResult)
    (requestId agentType model : option jstring) : McpToolResponse :=
  let isError := (negb (isSuccess r) && negb (isPartialSuccess r))%bool in
  let sc0 : Map.t value :=
    [(str "agent", JString (agentName t));
     (str "toolName", JString (name t));
     (str "exitCode", JNum (exitCode r));
     (str "executionTime", JNum (executionTime r));
     (str "hasResult", JBool (match hasResult r with Some b => b | None => false end));
     (str "status", JString (status_string (status_of r)))] in
  let sc1 := set_if_string "agentType" agentType sc0 in
  let sc2 := set_if_string "model" model sc1 in
  let sc3 := if truthy (resultJson r) then Map.set (str "result") (resultJson r) sc2 else sc2 in
  let sc4 := match stderr r, stdout r with
             | _ :: _, _ :: _ => Map.set (str "stderr") (JString (stderr r)) sc3
             | _, _ => sc3
             end in
  let sc5 := set_if_string "requestId" requestId sc4 in
  let sc6 := Map.set (str "usageCount") (JNum (count (executionStats t))) sc5 in
  let sc7 := Map.set (str "averageTime")
               (round_div (totalTime (executionStats t)) (count (executionStats t))) sc6 in
  {| content := [mkText (str "text") (contentText r)];
     isError := isError;
     structuredContent := sc7 |}.

Definition createErrorResponse (t : tool) (errorMessage : jstring) : McpToolResponse :=
  {| content := [mkText (str "text") (str "Error: " ++ errorMessage)];
     isError := true;
     structuredContent :=
       [(str "status", JString (str "error"));
        (str "error", JString errorMessage);
        (str "agent", JString (agentName t));
        (str "toolName", JString (name t))] |}.

Definition updateExecutionStats (now : Z) (t : tool) (time : Z) : tool :=
  let s := executionStats t in
  {| name := name t;
     description := description t;
     agentName := agentName t;
     executionStats := mkStats (count s + 1) (totalTime s + time) now |}.

(** *** [execute] *)

(** What [execute] takes from outside: the agents directory, the
    executor ([executeAgent] resolves or rejects), the clock and the
    text [generateRequestId] appends to the tool name (time stamp and
    random suffix).  The calls to the logger leave the response
    untouched and are not modelled. *)
Record Env := mkEnv {
  fs : AgentManager.FileSystem;
  executeAgent : ExecutionParams -> result AgentExecutionResult;
  now : Z;
  requestSuffix : jstring
}.

Definition generateRequestId (env : Env) (t : tool) : jstring :=
  name t ++ str "_" ++ requestSuffix env.

(** The [try] block of [execute]: the response and the tool with its
    statistics updated, or what was thrown. *)
Definition execute_try (env : Env) (t : tool) (params : value)
  : result (McpToolResponse * tool) :=
  let requestId := generateRequestId env t in
  validatedParams <- validateParams params ;;
  found <- AgentManager.getAgent (fs env) (agentName t) ;;
  match found with
  | None => Throw (ErrorObj (str "Agent '" ++ agentName t ++ str "' not found"))
  | Some agent =>
      let outputInstructions :=
        AgentManager.or_else (output_instructions validatedParams)
                             DEFAULT_OUTPUT_INSTRUCTIONS in
      let finalPrompt :=
        prompt validatedParams ++ [LF; LF] ++ str "[Output Instructions]" ++ [LF]
        ++ outputInstructions in
      let executionParams :=
        {| ep_agent := AgentManager.content agent;
           ep_prompt := finalPrompt;
           ep_cwd := cwd validatedParams;
           ep_extra_args := extra_args validatedParams;
           ep_agentType := AgentManager.when_truthy (AgentManager.agentType agent);
           ep_model := AgentManager.when_truthy (AgentManager.model agent) |} in
      r <- executeAgent env executionParams ;;
      let t' := updateExecutionStats (now env) t (executionTime r) in
      Ok (formatExecutionResponse t' r (Some requestId)
            (AgentManager.agentType agent) (AgentManager.model agent), t')
  end.

(** [error instanceof Error ? error.message : 'Unknown error'] *)
Definition error_message (e : thrown) : jstring :=
  match e with
  | ErrorObj m => m
  | NonError _ => str "Unknown error"
  end.

(** [execute(params)]: always a response, never a throw. *)
Definition execute (env : Env) (t : tool) (params : value) : McpToolResponse * tool :=
  match execute_try env t params with
  | Ok res => res
  | Throw e =>
      (createErrorResponse t (str "Agent execution failed: " ++ error_message e), t)
  end.

(** [getExecutionStats()]: a copy of the statistics. *)
Definition getExecutionStats (t : tool) : ExecutionStats :=
  mkStats (count (executionStats t)) (totalTime (executionStats t))
          (lastUsed (executionStats t)).

End DynamicAgentTool.

(* ================================================================== *)
(** ** src/resources/AgentResources.ts                                 *)
(* ================================================================== *)

Module AgentResources.
Import Js.

Record McpResource := mkResource {
  uri : jstring;
  name : jstring;
  description : jstring;
  mimeType : option jstring
}.

Record McpResourceContent := mkContent {
  type_ : jstring;
  text : jstring;
  content_uri : jstring
}.

(** An [AgentResources] object: its agent manager, if it was given one
    (the directory that manager reads), and [Date.prototype.toISOString]
    on modification times. *)
Record resources := mkResources {
  agentManager : option AgentManager.FileSystem;
  toISOString : Z -> jstring
}.

(** [listResources()] *)
Definition listResources : list McpResource :=
  [ {| uri := str "agents://list";
       name := str "Agent List";
       description :=
         str "List of available agents (each agent is exposed as its own MCP tool)";
       mimeType := Some (str "text/plain") |} ].

Definition list_content (t : jstring) : list McpResourceContent :=
  [mkContent (str "text") t (str "agents://list")].

(** The lines of the listing for one agent. *)
Definition agent_entry (rs : resources) (agent : AgentManager.AgentDefinition) : jstring :=
  let toolName := str "agent_" ++ DynamicAgentTool.replace_invalid (AgentManager.name agent) in
  str "## " ++ AgentManager.name agent ++ [LF]
  ++ str "**Description:** " ++ AgentManager.description agent ++ [LF]
  ++ str "**Tool Name:** " ++ toolName ++ [LF]
  ++ str "**File:** " ++ AgentManager.filePath agent ++ [LF]
  ++ str "**Last Modified:** " ++ toISOString rs (AgentManager.lastModified agent) ++ [LF]
  ++ match AgentManager.agentType agent with
     | Some ((_ :: _) as ty) => str "**Agent Type:** " ++ ty ++ [LF]
     | _ => []
     end
  ++ match AgentManager.model agent with
     | Some ((_ :: _) as m) => str "**Model:** " ++ m ++ [LF]
     | _ => []
     end
  ++ [LF].

(** The header of the listing. *)
Definition list_header (n : nat) : jstring :=
  str "Available Agents (" ++ dec n ++ str " total)" ++ [LF; LF]
  ++ str "Each agent is exposed as its own MCP tool with the prefix 'agent_'."
  ++ [LF; LF] ++ str "---" ++ [LF; LF].

(** [getAgentListContent()] *)
Definition getAgentListContent (rs : resources) : list McpResourceContent :=
  match agentManager rs with
  | None => list_content (str "Agent manager not available. No agents can be listed.")
  | Some fs =>
      match AgentManager.listAgents fs with
      | Ok [] =>
          list_content (str "No agents available. Check agent directory configuration.")
      | Ok agents =>
          list_content
            (fold_left (fun listText agent => listText ++ agent_entry rs agent) agents
                       (list_header (List.length agents)))
      | Throw e =>
          list_content
            (str "Error loading agent list: "
             ++ match e with
                | ErrorObj m => m
                | NonError _ => str "Unknown error"
                end)
      end
  end.

(** [readResource(uri)] *)
Definition readResource (rs : resources) (u : jstring) : result (list McpResourceContent) :=
  if eqs u (str "agents://list") then Ok (getAgentListContent rs)
  else Throw (ErrorObj
                (str "Invalid resource URI: " ++ u
                 ++ str ". Individual agents are now exposed as MCP tools with the prefix 'agent_'. "
                 ++ str "Use the agents://list resource to see all available agents.")).

(** [isValidResourceUri(uri)] *)
Definition isValidResourceUri (u : jstring) : bool :=
  match u with
  | [] => false
  | _ :: _ => eqs u (str "agents://list")
  end.

End AgentResources.

(* ================================================================== *)
(** ** src/server/McpServer.ts                                         *)
(* ================================================================== *)

Module McpServer.
Import Js.

Inductive LogLevel := debug | info | warn | error.

(** The table [logLevels] of [log]. *)
Definition logLevels (l : LogLevel) : Z :=
  match l with
  | debug => 0
  | info => 1
  | warn => 2
  | error => 3
  end.

Definition level_string (l : LogLevel) : jstring :=
  match l with
  | debug => str "debug"
  | info => str "info"
  | warn => str "warn"
  | error => str "error"
  end.

(** The state of a server the registry code reads and writes: the
    configured log level, the map [dynamicTools], and the lines given to
    [console.error], oldest first, each the object that was serialised. *)
Record server := mkServer {
  logLevel : LogLevel;
  dynamicTools : Map.t DynamicAgentTool.tool;
  console : list (Map.t value)
}.

(** What the server takes from outside: the environment of its tools
    (whose directory is the one its agent manager lists), the method
    [getAgentName] that [initializeDynamicTools] calls on a registered
    tool (the class in DynamicAgentTools.ts does not declare it, so the
    call may as well throw), and the two readings of [Date.now()]; the
    tools built during initialisation carry the first as [lastUsed]. *)
Record Env := mkEnv {
  tool_env : DynamicAgentTool.Env;
  getAgentName : DynamicAgentTool.tool -> result jstring;
  startTime : Z;
  endTime : Z
}.

(** The object [{ timestamp, level, message, service, ...metadata }]:
    a key of [metadata] that is already there takes over the value.
    The time stamp is left out. *)
Definition logEntry (level : LogLevel) (message : string) (metadata : Map.t value)
  : Map.t value :=
  fold_left (fun o kv => Map.set (fst kv) (snd kv) o) metadata
    [(str "level", JString (level_string level));
     (str "message", JString (str message));
     (str "service", JString (str "mcp-server"))].

(** [log(level, message, metadata)] *)
Definition log (level : LogLevel) (message : string) (metadata : Map.t value)
    (st : server) : server :=
  if logLevels level >=? logLevels (logLevel st)
  then mkServer (logLevel st) (dynamicTools st)
                (console st ++ [logEntry level message metadata])
  else st.

(** [this.dynamicTools.set(name, tool)] *)
Definition set_tool (k : jstring) (t : DynamicAgentTool.tool) (st : server) : server :=
  mkServer (logLevel st) (Map.set k t (dynamicTools st)) (console st).

(** [this.dynamicTools.clear()] *)
Definition clear_tools (st : server) : server :=
  mkServer (logLevel st) Map.empty (console st).

Definition strings (l : list jstring) : value := JArray (List.map JString l).

(** The metadata of the warning logged at a collision. *)
Definition collision_warning (toolName : jstring) (existingAgents : list jstring)
  : Map.t value :=
  [(str "toolName", JString toolName);
   (str "collidingAgents", strings existingAgents);
   (str "message",
    JString (str "Multiple agents sanitize to the same tool name '" ++ toolName
             ++ str "'. Only the last agent will be accessible."))].

(** One element of [collisions] in the summary. *)
Definition collision_record (c : jstring * list jstring) : value :=
  let (toolName, agentNames) := c in
  JObject
    [(str "toolName", JString toolName);
     (str "agentNames", strings agentNames);
     (str "hiddenAgents", strings (removelast agentNames));
     (str "accessibleAgent",
      match rev agentNames with
      | l :: _ => JString l
      | [] => JUndefined
      end)].

(** The metadata of the error-level summary. *)
Definition collision_summary (collisions : list (jstring * list jstring)) : Map.t value :=
  [(str "collisionCount", JNum (Z.of_nat (List.length collisions)));
   (str "collisions", JArray (List.map collision_record collisions));
   (str "recommendation",
    JString (str "Rename agents to avoid name collisions after sanitization. "
             ++ str "Agent names should differ by more than just special characters or spaces."))].

(** The [for] loop of [initializeDynamicTools]; [toolNameToAgents] is
    its local map.  A throw leaves the server as it was at that point. *)
Fixpoint register_agents (env : Env) (agents : list AgentManager.AgentDefinition)
    (toolNameToAgents : Map.t (list jstring)) (st : server)
  : result (Map.t (list jstring)) * server :=
  match agents with
  | [] => (Ok toolNameToAgents, st)
  | agent :: rest =>
      let tool := DynamicAgentTool.new (startTime env) (AgentManager.name agent)
                    (AgentManager.description agent) in
      let toolName := DynamicAgentTool.name tool in
      if Map.has toolName (dynamicTools st) then
        let known := match Map.get toolName toolNameToAgents with
                     | Some l => l
                     | None => []
                     end in
        let first : result (list jstring) :=
          match known with
          | [] =>
              match Map.get toolName (dynamicTools st) with
              | Some existingTool =>
                  n <- getAgentName env existingTool ;;
                  Ok [n]
              | None => Ok []
              end
          | _ :: _ => Ok known
          end in
        match first with
        | Throw e => (Throw e, st)
        | Ok l =>
            let existingAgents := l ++ [AgentManager.name agent] in
            let toolNameToAgents' := Map.set toolName existingAgents toolNameToAgents in
            let st1 := log warn "Agent tool name collision detected"
                         (collision_warning toolName existingAgents) st in
            register_agents env rest toolNameToAgents' (set_tool toolName tool st1)
        end
      else
        register_agents env rest
          (Map.set toolName [AgentManager.name agent] toolNameToAgents)
          (set_tool toolName tool st)
  end.

(** The [try] block of [initializeDynamicTools]. *)
Definition initialize_try (env : Env) (st : server) : result unit * server :=
  let st0 := log debug "Initializing dynamic agent tools" [] st in
  match AgentManager.listAgents (DynamicAgentTool.fs (tool_env env)) with
  | Throw e => (Throw e, st0)
  | Ok agents =>
      match register_agents env agents Map.empty st0 with
      | (Throw e, st1) => (Throw e, st1)
      | (Ok toolNameToAgents, st1) =>
          let collisions :=
            filter (fun c => Z.of_nat (List.length (snd c)) >? 1)
                   (Map.entries toolNameToAgents) in
          let st2 :=
            if Z.of_nat (List.length collisions) >? 0
            then log error "Agent tool name collisions detected during initialization"
                     (collision_summary collisions) st1
            else st1 in
          (Ok tt,
           log info "Dynamic agent tools initialized successfully"
             [(str "agentCount", JNum (Z.of_nat (List.length agents)));
              (str "toolCount", JNum (Map.size (dynamicTools st2)));
              (str "collisionCount", JNum (Z.of_nat (List.length collisions)));
              (str "initTime", JNum (endTime env - startTime env))]
             st2)
      end
  end.

(** [error instanceof Error ? error.message : String(error)] *)
Definition describe_error (e : thrown) : jstring :=
  match e with
  | ErrorObj m => m
  | NonError s => s
  end.

(** [initializeDynamicTools()]: the [catch] logs and clears the map. *)
Definition initializeDynamicTools (env : Env) (st : server) : result unit * server :=
  match initialize_try env st with
  | (Ok u, st') => (Ok u, st')
  | (Throw e, st') =>
      (Ok tt,
       clear_tools
         (log warn "Failed to initialize dynamic agent tools (server will have 0 tools)"
            [(str "error", JString (describe_error e))] st'))
  end.

(** [if (this.dynamicTools.size === 0) await this.initializeDynamicTools()] *)
Definition ensure_tools (env : Env) (st : server) : result unit * server :=
  if Map.size (dynamicTools st) =? 0 then initializeDynamicTools env st
  else (Ok tt, st).

(** [listTools()]: name, description and schema of every tool. *)
Definition listTools (env : Env) (st : server)
  : result (list (jstring * jstring * value)) * server :=
  match ensure_tools env st with
  | (Throw e, st') => (Throw e, st')
  | (Ok _, st') =>
      (Ok (List.map (fun t => (DynamicAgentTool.name t, DynamicAgentTool.description t,
                               DynamicAgentTool.inputSchema))
                    (Map.values (dynamicTools st'))), st')
  end.

(** [callTool(toolName, params)]: the tool found under the name runs
    [execute], which updates the statistics of that very object. *)
Definition callTool (env : Env) (toolName : jstring) (params : value) (st : server)
  : result DynamicAgentTool.McpToolResponse * server :=
  match ensure_tools env st with
  | (Throw e, st') => (Throw e, st')
  | (Ok _, st') =>
      match Map.get toolName (dynamicTools st') with
      | None => (Throw (ErrorObj (str "Unknown tool: " ++ toolName)), st')
      | Some tool =>
          let (response, tool') := DynamicAgentTool.execute (tool_env env) tool params in
          (Ok response, set_tool toolName tool' st')
      end
  end.

(** [validateConfig(config)], on the two fields it reads. *)
Definition validateConfig (serverName serverVersion : jstring) : result unit :=
  if (match serverName with [] => true | _ => false end || eqs (trim serverName) [])%bool
  then throwError "Server name cannot be empty"
  else if (match serverVersion with [] => true | _ => false end
           || eqs (trim serverVersion) [])%bool
  then throwError "Server version cannot be empty"
  else Ok tt.

(** The [AgentResources] of a server: built on its agent manager. *)
Definition agentResources (env : Env) (iso : Z -> jstring) : AgentResources.resources :=
  AgentResources.mkResources (Some (DynamicAgentTool.fs (tool_env env))) iso.

(** [listResources()]: uri, name and description of every resource. *)
Definition listResources : list (jstring * jstring * jstring) :=
  List.map (fun r => (AgentResources.uri r, AgentResources.name r,
                      AgentResources.description r))
           AgentResources.listResources.

(** [readResource(uri)] *)
Definition readResource (env : Env) (iso : Z -> jstring) (u : jstring)
  : result (list AgentResources.McpResourceContent) :=
  if negb (AgentResources.isValidResourceUri u)
  then Throw (ErrorObj (str "Invalid resource URI: " ++ u))
  else AgentResources.readResource (agentResources env iso) u.

(** [getServerStats().executionStats]: the statistics of every tool,
    under its name. *)
Definition getServerStats (st : server) : Map.t DynamicAgentTool.ExecutionStats :=
  fold_left (fun m kv => Map.set (fst kv) (DynamicAgentTool.getExecutionStats (snd kv)) m)
            (Map.entries (dynamicTools st)) Map.empty.

End McpServer.

(* ================================================================== *)
(** ** Sample directories, calls and servers                           *)
(* ================================================================== *)

Module Fixtures.
Import Js.
Local Open Scope string_scope.
Local Open Scope list_scope.

(** The 64 code units a tool name keeps. *)
Definition tool_alphabet : jstring :=
  str "abcdefghijklmnopqrstuvwxyzABCDEFGHIJKLMNOPQRSTUVWXYZ0123456789_-".

(** A text given line by line. *)
Fixpoint lines (l : list string) : jstring :=
  match l with
  | [] => []
  | [x] => str x
  | x :: r => str x ++ LF :: lines r
  end.

(** A readable file of the directory [/agents]. *)
Definition file (n : string) (text : jstring) : AgentManager.FileEntry :=
  {| AgentManager.fileName := str n;
     AgentManager.entryPath := str "/agents/" ++ str n;
     AgentManager.readFile := Ok text;
     AgentManager.stat_mtime := Ok 1735689600000 |}.

Definition directory (files : list AgentManager.FileEntry) : AgentManager.FileSystem :=
  {| AgentManager.agentsDir := str "/agents";
     AgentManager.readdir := Ok files |}.

(** The file of the test [should parse tools and autoApprovalMode from
    frontmatter]. *)
Definition advanced_agent_md : jstring :=
  lines ["---";
         "name: advanced-agent";
         "description: 'Agent with tools and auto-approval'";
         "tools: tool1, tool2, tool3";
         "autoApprovalMode: true";
         "model: claude-3";
         "agentType: claude";
         "---";
         "";
         "Content here."].



(** The directory of the collision test: [my_agent] and [my agent]
    share a tool name, [my-agent] has its own. *)
Definition colliding_directory : AgentManager.FileSystem :=
  directory [file "my_agent.md" (lines ["# My Agent"; ""; "First agent with underscores."]);
             file "my agent.md" (lines ["# My Agent"; ""; "Second agent with spaces."]);
             file "my-agent.md" (lines ["# My Agent"; ""; "Third agent with hyphens."])].

(** Two files that both name their agent [helper]. *)
Definition helper_first : AgentManager.FileEntry :=
  file "a.md" (lines ["---"; "name: helper"; "---"; "First."]).

Definition helper_second : AgentManager.FileEntry :=
  file "b.md" (lines ["---"; "name: helper"; "---"; "Second."]).

(** A rendering of modification times, standing for [toISOString]. *)
Definition iso_2025 (_ : Z) : jstring := str "2025-01-01T00:00:00.000Z".

(** A directory that cannot be read. *)
Definition missing_directory : AgentManager.FileSystem :=
  {| AgentManager.agentsDir := str "/nowhere";
     AgentManager.readdir := Throw (ErrorObj (str "ENOENT: no such file or directory")) |}.

(** An executor whose run prints [done] and exits with 0. *)
Definition quiet_executor (_ : DynamicAgentTool.ExecutionParams)
  : result DynamicAgentTool.AgentExecutionResult :=
  Ok (DynamicAgentTool.mkExecResult (str "done") [] 0 100 (Some true) JUndefined).

(** An executor whose run fails: exit code 1, a message on stderr. *)
Definition failing_executor (_ : DynamicAgentTool.ExecutionParams)
  : result DynamicAgentTool.AgentExecutionResult :=
  Ok (DynamicAgentTool.mkExecResult [] (str "Execution error") 1 50 (Some false) JUndefined).

(** An executor that cannot start its process. *)
Definition broken_executor (_ : DynamicAgentTool.ExecutionParams)
  : result DynamicAgentTool.AgentExecutionResult :=
  Throw (ErrorObj (str "spawn cursor-agent ENOENT")).

Definition sample_tool_env (fs : AgentManager.FileSystem) : DynamicAgentTool.Env :=
  DynamicAgentTool.mkEnv fs quiet_executor 1735689600500 (str "1735689600500_k3j9x2m1q").

(** The call [existingTool.getAgentName()] on a class without that
    method. *)
Definition no_getAgentName (_ : DynamicAgentTool.tool) : result jstring :=
  Throw (ErrorObj (str "existingTool.getAgentName is not a function")).

Definition server_env (fs : AgentManager.FileSystem) : McpServer.Env :=
  McpServer.mkEnv (sample_tool_env fs) no_getAgentName 1735689600000 1735689600007.

(** A server that has not built its registry yet. *)
Definition fresh_server (level : McpServer.LogLevel) : McpServer.server :=
  McpServer.mkServer level Map.empty [].

(** A server whose registry already holds a tool for [my-agent], as a
    second build running after a first one would find it. *)
Definition stale_server : McpServer.server :=
  McpServer.mkServer McpServer.debug
    [(str "agent_my-agent",
      DynamicAgentTool.new 1735689500000 (str "my-agent") (str "My Agent"))] [].

(** The definitions loaded from [colliding_directory]. *)
Definition loaded (n : string) (nm : string) (text : jstring) : AgentManager.AgentDefinition :=
  {| AgentManager.name := str nm;
     AgentManager.description := str "My Agent";
     AgentManager.content := text;
     AgentManager.filePath := str "/agents/" ++ str n;
     AgentManager.lastModified := 1735689600000;
     AgentManager.model := None;
     AgentManager.color := None;
     AgentManager.tools := None;
     AgentManager.autoApprovalMode := None;
     AgentManager.agentType := None |}.

Definition my_agent_underscore : AgentManager.AgentDefinition :=
  loaded "my_agent.md" "my_agent" (lines ["# My Agent"; ""; "First agent with underscores."]).

Definition my_agent_space : AgentManager.AgentDefinition :=
  loaded "my agent.md" "my agent" (lines ["# My Agent"; ""; "Second agent with spaces."]).

Definition my_agent_hyphen : AgentManager.AgentDefinition :=
  loaded "my-agent.md" "my-agent" (lines ["# My Agent"; ""; "Third agent with hyphens."]).


(** A prompt of 50,001 code units: a space, then 50,000 letters. *)
Definition padded_prompt : jstring := 32%N :: repeat 97%N (N.to_nat 50000).

Definition prompt_only (p : jstring) : value := JObject [(str "prompt", JString p)].

(** The length of the prompt a validation lets through. *)
Definition accepted_length (r : result DynamicAgentTool.DynamicAgentParams) : option Z :=
  match r with
  | Ok v => Some (len (DynamicAgentTool.prompt v))
  | Throw _ => None
  end.

End Fixtures.

(* ================================================================== *)
(** ** Notions used in the statements                                  *)
(* ================================================================== *)

Module Notions.
Import Js McpServer.

(** An engine name the parser may have stored, or none. *)
Definition engine_or_absent (o : option jstring) : Prop :=
  match o with
  | None => True
  | Some v => v = str "cursor" \/ v = str "claude"
  end.

(** The files [loadAgentsFromDirectory] keeps. *)
Definition is_agent_file (f : AgentManager.FileEntry) : bool :=
  (endsWith (str ".md") (AgentManager.fileName f) || endsWith (str ".txt") (AgentManager.fileName f))%bool.

Definition keyed_by_name (m : Map.t AgentManager.AgentDefinition) : Prop :=
  forall k a, Map.get k m = Some a -> AgentManager.name a = k.

(** The tool [initializeDynamicTools] builds for an agent. *)
Definition tool_of (env : Env) (a : AgentManager.AgentDefinition) : DynamicAgentTool.tool :=
  DynamicAgentTool.new (startTime env) (AgentManager.name a) (AgentManager.description a).

Definition toolName_of (a : AgentManager.AgentDefinition) : jstring :=
  DynamicAgentTool.sanitizeToolName (AgentManager.name a).

(** The agents of a list whose names sanitize to [T], in list order. *)
Definition claimants (T : jstring) (agents : list AgentManager.AgentDefinition)
  : list AgentManager.AgentDefinition :=
  filter (fun a => eqs (toolName_of a) T) agents.

Definition colliding_names (T : jstring) (agents : list AgentManager.AgentDefinition)
  : list jstring :=
  List.map AgentManager.name (claimants T agents).

Definition last_opt {A} (l : list A) : option A :=
  match rev l with
  | x :: _ => Some x
  | [] => None
  end.

(** What the loop of [initializeDynamicTools] maintains once it has
    gone through the agents [seen], when it started on an empty
    registry. *)
Record consistent (env : Env) (seen : list AgentManager.AgentDefinition)
    (toolNameToAgents : Map.t (list jstring)) (st : server) : Prop := {
  names_tracked : forall T,
    Map.get T toolNameToAgents =
    match colliding_names T seen with
    | [] => None
    | l => Some l
    end;
  last_registered : forall T,
    Map.get T (dynamicTools st) = option_map (tool_of env) (last_opt (claimants T seen));
  keys_distinct : NoDup (Map.keys (dynamicTools st))
}.

(** A code unit that [sanitizeToolName] turns into an underscore or
    that is the underscore already. *)
Definition blank (c : char16) : Prop :=
  DynamicAgentTool.is_tool_char c = false \/ c = 95%N.

(** Two names that differ only where both have a [blank]. *)
Definition same_shape : jstring -> jstring -> Prop :=
  Forall2 (fun x y => x = y \/ (blank x /\ blank y)).

(** An entry of [extra_args] that [validateParams] lets through. *)
Definition short_string (v : value) : Prop :=
  exists s, v = JString s /\ len s <= 1000.

(** The [ExecutionParams] that [execute] builds from validated
    parameters and the agent found. *)
Definition execution_params_for (v : DynamicAgentTool.DynamicAgentParams)
    (agent : AgentManager.AgentDefinition) : DynamicAgentTool.ExecutionParams :=
  {| DynamicAgentTool.ep_agent := AgentManager.content agent;
     DynamicAgentTool.ep_prompt :=
       DynamicAgentTool.prompt v ++ [LF; LF] ++ str "[Output Instructions]" ++ [LF]
       ++ AgentManager.or_else (DynamicAgentTool.output_instructions v)
            DynamicAgentTool.DEFAULT_OUTPUT_INSTRUCTIONS;
     DynamicAgentTool.ep_cwd := DynamicAgentTool.cwd v;
     DynamicAgentTool.ep_extra_args := DynamicAgentTool.extra_args v;
     DynamicAgentTool.ep_agentType :=
       AgentManager.when_truthy (AgentManager.agentType agent);
     DynamicAgentTool.ep_model := AgentManager.when_truthy (AgentManager.model agent) |}.

(** A directory entry that ends up in the listing: an agent file that
    can be read. *)
Definition loads (f : AgentManager.FileEntry) : bool :=
  (is_agent_file f
   && match AgentManager.loadAgentFromFile f with Some _ => true | None => false end)%bool.

(** A line of the log that the configured level [lvl] lets through:
    its [level] field names a level that is not below [lvl]. *)
Definition admitted (lvl : LogLevel) (e : Map.t value) : Prop :=
  exists lv, Map.get (str "level") e = Some (JString (level_string lv)) /\
             logLevels lv >= logLevels lvl.

(** What [listTools] shows of a tool. *)
Definition descriptor (t : DynamicAgentTool.tool) : jstring * jstring * value :=
  (DynamicAgentTool.name t, DynamicAgentTool.description t, DynamicAgentTool.inputSchema).

(** The carriage return. *)
Definition CR : char16 := 13%N.

End Notions.

(* ================================================================== *)
(** * Properties                                                       *)
(* ================================================================== *)

(** ** Strings and maps *)

Module JsFacts.
Import Js.

Lemma eqs_true_iff (a b : jstring) : eqs a b = true <-> a = b.
Proof.
  revert b; induction a as [|x a IH]; intros [|y b]; simpl; split; intro H;
    try reflexivity; try discriminate.
  - apply andb_true_iff in H as [H1 H2].
    apply N.eqb_eq in H1. apply IH in H2. congruence.
  - injection H as -> ->. rewrite N.eqb_refl. simpl. now apply IH.
Qed.

Lemma eqs_refl (a : jstring) : eqs a a = true.
Proof. now apply eqs_true_iff. Qed.

Lemma eqs_false_iff (a b : jstring) : eqs a b = false <-> a <> b.
Proof.
  rewrite <- eqs_true_iff. destruct (eqs a b); split; congruence.
Qed.

Section MapLemmas.
Context {V : Type}.
Implicit Types (m : Map.t V) (k : jstring) (v : V).

Lemma get_set_same m k v : Map.get k (Map.set k v m) = Some v.
Proof.
  induction m as [|[k' v'] m IH]; unfold Map.get in *; simpl.
  - now rewrite eqs_refl.
  - destruct (eqs k' k) eqn:E; simpl; rewrite E; auto.
Qed.

Lemma get_set_other m k k' v :
  k' <> k -> Map.get k (Map.set k' v m) = Map.get k m.
Proof.
  intros Hne. induction m as [|[k0 v0] m IH]; unfold Map.get in *; simpl.
  - apply eqs_false_iff in Hne. now rewrite Hne.
  - destruct (eqs k0 k') eqn:E; simpl.
    + apply eqs_true_iff in E. subst k0.
      apply eqs_false_iff in Hne. now rewrite Hne.
    + destruct (eqs k0 k); auto.
Qed.



Lemma get_In m k v : Map.get k m = Some v -> In (k, v) m.
Proof.
  induction m as [|[k' v'] m IH]; unfold Map.get in *; simpl; [discriminate|].
  destruct (eqs k' k) eqn:E.
  - apply eqs_true_iff in E. intros [= ->]. left. congruence.
  - intros H. right. auto.
Qed.

Lemma get_None_keys m k : Map.get k m = None -> ~ In k (Map.keys m).
Proof.
  induction m as [|[k' v'] m IH]; unfold Map.get in *; simpl; [tauto|].
  destruct (eqs k' k) eqn:E; [discriminate|].
  intros H [Hk|Hk]; [|now apply IH].
  apply eqs_false_iff in E. congruence.
Qed.

Lemma keys_set_fresh m k v :
  Map.get k m = None -> Map.keys (Map.set k v m) = Map.keys m ++ [k].
Proof.
  induction m as [|[k' v'] m IH]; unfold Map.get in *; simpl; [reflexivity|].
  destruct (eqs k' k) eqn:E; [discriminate|].
  intros H. simpl. f_equal. now apply IH.
Qed.

Lemma keys_set_known m k v v0 :
  Map.get k m = Some v0 -> Map.keys (Map.set k v m) = Map.keys m.
Proof.
  induction m as [|[k' v'] m IH]; unfold Map.get in *; simpl; [discriminate|].
  destruct (eqs k' k) eqn:E; [reflexivity|].
  intros H. simpl. f_equal. now apply IH.
Qed.

(** [set] never duplicates a key. *)
Lemma NoDup_keys_set m k v :
  NoDup (Map.keys m) -> NoDup (Map.keys (Map.set k v m)).
Proof.
  intros Hnd. destruct (Map.get k m) eqn:G.
  - now erewrite keys_set_known by eassumption.
  - rewrite keys_set_fresh by assumption.
    apply NoDup_app; [assumption | repeat constructor; simpl; tauto |].
    intros x Hx [<-|[]]. now apply get_None_keys in G.
Qed.


End MapLemmas.

End JsFacts.

(** ** Tool names, validation and responses (DynamicAgentTools.ts) *)

Module ToolFacts.
Import Js JsFacts DynamicAgentTool Fixtures.

Lemma is_tool_char_alphabet (c : char16) :
  is_tool_char c = true <-> In c tool_alphabet.
Proof.
  split.
  - intros H.
    assert (Hlt : (c < 128)%N).
    { unfold is_tool_char, in_range in H.
      repeat (apply orb_true_iff in H as [H|H]);
        try (apply andb_true_iff in H as [_ H]; apply N.leb_le in H; lia);
        apply N.eqb_eq in H; lia. }
    assert (Hall : forallb (fun x => implb (is_tool_char x) (existsb (N.eqb x) tool_alphabet))
                           (List.map N.of_nat (seq 0 128)) = true) by (vm_compute; reflexivity).
    rewrite forallb_forall in Hall.
    assert (Hin : In c (List.map N.of_nat (seq 0 128))).
    { apply in_map_iff. exists (N.to_nat c). split; [apply N2Nat.id|].
      apply in_seq. lia. }
    apply Hall in Hin. rewrite H in Hin. unfold implb in Hin.
    apply existsb_exists in Hin as [x [Hx Hcx]].
    apply N.eqb_eq in Hcx. now subst.
  - intros H.
    assert (Hall : forallb is_tool_char tool_alphabet = true) by (vm_compute; reflexivity).
    rewrite forallb_forall in Hall. now apply Hall.
Qed.

Lemma replace_invalid_nth (s : jstring) (i : nat) (c : char16) :
  nth_error s i = Some c ->
  nth_error (replace_invalid s) i = Some (if is_tool_char c then c else 95%N).
Proof.
  intros H. unfold replace_invalid. now rewrite nth_error_map, H.
Qed.

(** C6.  [sanitizeToolName] returns the prefix [agent_] followed by a
    string as long as the agent name, in which every code unit in
    [A-Za-z0-9_-] is kept at its place and every other one is replaced,
    one for one, by an underscore. *)
Theorem sanitizeToolName_length_preserving (agentName : jstring) :
  exists body,
    sanitizeToolName agentName = str "agent_" ++ body /\
    List.length body = List.length agentName /\
    forall i c, nth_error agentName i = Some c ->
      (In c tool_alphabet -> nth_error body i = Some c) /\
      (~ In c tool_alphabet -> nth_error body i = nth_error (str "_") 0).
Proof.
  exists (replace_invalid agentName). split; [reflexivity|]. split.
  - unfold replace_invalid. apply length_map.
  - intros i c H. apply replace_invalid_nth in H. rewrite H.
    split; intros Hc.
    + apply is_tool_char_alphabet in Hc. now rewrite Hc.
    + destruct (is_tool_char c) eqn:E; [|reflexivity].
      apply is_tool_char_alphabet in E. contradiction.
Qed.

Lemma sanitizeToolName_witness :
  sanitizeToolName (str "test agent!@#") = str "agent_test_agent___".
Proof.
  destruct (sanitizeToolName_length_preserving (str "test agent!@#"))
    as (body & -> & Hlen & Hnth).
  change (str "agent_test_agent___") with (str "agent_" ++ str "test_agent___").
  f_equal.
  assert (Hok : forall i c, nth_error (str "test agent!@#") i = Some c ->
                  nth_error body i = nth_error (str "test_agent___") i).
  { intros i c Hc. destruct (Hnth i c Hc) as [Hkeep Hrepl].
    do 13 (destruct i as [|i];
           [injection Hc as <-;
            first [ rewrite Hkeep; [reflexivity|vm_compute; tauto]
                  | rewrite Hrepl; [reflexivity|
                      vm_compute; intros H;
                      repeat (destruct H as [H|H]; [discriminate H|]); exact H] ]|]).
    destruct i; discriminate Hc. }
  apply nth_error_ext. intros i.
  destruct (nth_error (str "test agent!@#") i) as [c|] eqn:E.
  - eapply Hok, E.
  - apply nth_error_None in E.
    transitivity (@None char16); [|symmetry]; apply nth_error_None;
      [rewrite Hlen; exact E|exact E].
Defined.

Example sanitize_preserves_valid :
  sanitizeToolName (str "test_agent-123") = str "agent_test_agent-123".
Proof. reflexivity. Qed.

(** *** The structured content *)






Example status_sigterm_with_result :
  status_of (mkExecResult (str "out") [] 143 10 (Some true) JUndefined) = success
  /\ status_of (mkExecResult (str "out") [] 124 10 (Some true) JUndefined) = partial
  /\ status_of (mkExecResult [] [] 1 10 (Some false) JUndefined) = error
  /\ status_of (mkExecResult [] [] 143 10 (Some false) JUndefined) = error.
Proof. repeat split. Qed.

(** *** The primary text *)






(** *** Errors of [execute] *)

Lemma bind_Throw {A B} (r : result A) (k : A -> result B) (e : thrown) :
  bind r k = Throw e -> r = Throw e \/ exists a, r = Ok a /\ k a = Throw e.
Proof.
  destruct r as [a|e']; simpl; intros H; [right; eauto|left].
  injection H as ->. reflexivity.
Qed.

(** Closes a goal whose hypothesis is a [throw new Error(...)]. *)
Ltac error_thrown := intros [= <-]; eexists; reflexivity.

Lemma validate_args_throws args : forall index e,
  validate_args index args = Throw e -> exists m, e = ErrorObj m.
Proof.
  induction args as [|a args IH]; intros index e; simpl; [discriminate|].
  destruct a; try error_thrown.
  destruct (len s >? 1000); [error_thrown|].
  intros H. apply bind_Throw in H as [H|(r & _ & H)]; [|discriminate H].
  eapply IH, H.
Qed.

Lemma validate_output_instructions_throws v e :
  validate_output_instructions v = Throw e -> exists m, e = ErrorObj m.
Proof.
  unfold validate_output_instructions, throwError.
  destruct v; try error_thrown; try discriminate.
  destruct (len s >? 5000); [error_thrown|discriminate].
Qed.

Lemma validate_cwd_throws v e :
  validate_cwd v = Throw e -> exists m, e = ErrorObj m.
Proof.
  unfold validate_cwd, throwError.
  destruct v; try error_thrown; try discriminate.
  destruct (len s >? 1000); [error_thrown|].
  destruct (includes (str "..") s || includes [0%N] s)%bool; [error_thrown|discriminate].
Qed.

Lemma validate_extra_args_throws v e :
  validate_extra_args v = Throw e -> exists m, e = ErrorObj m.
Proof.
  unfold validate_extra_args, throwError.
  destruct v; try error_thrown; try discriminate.
  destruct (Z.of_nat (List.length xs) >? 20); [error_thrown|].
  intros H. apply bind_Throw in H as [H|(r & _ & H)]; [|discriminate H].
  eapply validate_args_throws, H.
Qed.

(** Whatever [validateParams] throws is an [Error] with a message. *)
Lemma validateParams_throws params e :
  validateParams params = Throw e -> exists m, e = ErrorObj m.
Proof.
  unfold validateParams, throwError.
  destruct (negb (truthy params) || negb (typeof_object params))%bool; [error_thrown|].
  destruct (negb (truthy (get_prop params (str "prompt")))
            || negb (is_string (get_prop params (str "prompt"))))%bool; [error_thrown|].
  destruct (eqs _ []); [error_thrown|].
  destruct (len _ >? 50000); [error_thrown|].
  intros H.
  apply bind_Throw in H as [H|(oi & _ & H)];
    [eapply validate_output_instructions_throws, H|].
  apply bind_Throw in H as [H|(wd & _ & H)]; [eapply validate_cwd_throws, H|].
  apply bind_Throw in H as [H|(ea & _ & H)]; [eapply validate_extra_args_throws, H|].
  discriminate H.
Qed.

(** C8.  A call whose parameters fail validation, or whose agent is
    not in the directory any more, is answered, not thrown: [execute]
    returns a response with [isError] true whose text is the message of
    the violated constraint, respectively names the missing agent. *)
Theorem execute_reports_errors env t params :
  (forall e, validateParams params = Throw e ->
     exists m, e = ErrorObj m /\
       execute env t params
       = (createErrorResponse t (str "Agent execution failed: " ++ m), t)) /\
  (forall v, validateParams params = Ok v ->
     AgentManager.getAgent (fs env) (DynamicAgentTool.agentName t) = Ok None ->
     execute env t params
     = (createErrorResponse t
          (str "Agent execution failed: "
           ++ str "Agent '" ++ DynamicAgentTool.agentName t ++ str "' not found"), t)) /\
  (forall msg,
     isError (createErrorResponse t msg) = true /\
     content (createErrorResponse t msg) = [mkText (str "text") (str "Error: " ++ msg)]).
Proof.
  split; [|split].
  - intros e He. destruct (validateParams_throws _ He) as [m ->].
    exists m. split; [reflexivity|].
    unfold execute, execute_try. rewrite He. reflexivity.
  - intros v Hv Ha. unfold execute, execute_try. rewrite Hv. simpl.
    rewrite Ha. reflexivity.
  - intros msg. split; reflexivity.
Qed.

Lemma execute_reports_errors_witness :
  fst (execute (sample_tool_env colliding_directory)
         (new 0 (str "my-agent") (str "My Agent")) (JObject []))
  = createErrorResponse (new 0 (str "my-agent") (str "My Agent"))
      (str "Agent execution failed: Prompt parameter is required and must be a string")
  /\
  fst (execute (sample_tool_env colliding_directory)
         (new 0 (str "ghost") (str "Gone")) (prompt_only (str "hello")))
  = createErrorResponse (new 0 (str "ghost") (str "Gone"))
      (str "Agent execution failed: Agent 'ghost' not found").
Proof.
  split.
  - destruct (execute_reports_errors (sample_tool_env colliding_directory)
                (new 0 (str "my-agent") (str "My Agent")) (JObject [])) as (H & _ & _).
    destruct (H (ErrorObj (str "Prompt parameter is required and must be a string")))
      as (m & Hm & Hex); [reflexivity|].
    injection Hm as <-. rewrite Hex. reflexivity.
  - destruct (execute_reports_errors (sample_tool_env colliding_directory)
                (new 0 (str "ghost") (str "Gone")) (prompt_only (str "hello")))
      as (_ & H & _).
    rewrite (H (mkParams (str "hello") None None None)); reflexivity.
Defined.

(** *** The prompt *)

Lemma gtb_false_le (a b : Z) : (a >? b) = false <-> a <= b.
Proof. rewrite Z.gtb_ltb, Z.ltb_ge. reflexivity. Qed.

Lemma gtb_true_gt (a b : Z) : (a >? b) = true <-> a > b.
Proof. rewrite Z.gtb_ltb, Z.ltb_lt. lia. Qed.

Lemma eqs_nil (s : jstring) : eqs s [] = true <-> s = [].
Proof. apply eqs_true_iff. Qed.

(** C5, as the code has it.  For an input object: a prompt that is
    missing, not a string or the empty string is rejected with a
    message containing [required]; a prompt that is empty once trimmed
    is rejected; a prompt whose trimmed text is longer than 50,000 code
    units is rejected with a message containing [too long]; any other
    prompt passes, the verdict being that of the remaining fields, and
    the call is accepted with the trimmed prompt when those are absent.
    In particular a prompt whose trimmed text has exactly 50,000 code
    units is accepted. *)
Theorem validateParams_prompt (fields : list (jstring * value)) :
  let params := JObject fields in
  let p := get_prop params (str "prompt") in
  ((forall s, p <> JString s) \/ p = JString [] ->
     validateParams params
     = throwError "Prompt parameter is required and must be a string") /\
  (forall s, p = JString s -> s <> [] -> trim s = [] ->
     validateParams params = throwError "Invalid prompt parameter: cannot be empty") /\
  (forall s, p = JString s -> len (trim s) > 50000 ->
     validateParams params = throwError "Prompt too long (max 50,000 characters)") /\
  (forall s, p = JString s -> trim s <> [] -> len (trim s) <= 50000 ->
     validateParams params
     = (oi <- validate_output_instructions (get_prop params (str "output_instructions")) ;;
        wd <- validate_cwd (get_prop params (str "cwd")) ;;
        ea <- validate_extra_args (get_prop params (str "extra_args")) ;;
        Ok (mkParams (trim s) oi wd ea))) /\
  (forall s, p = JString s -> trim s <> [] -> len (trim s) <= 50000 ->
     get_prop params (str "output_instructions") = JUndefined ->
     get_prop params (str "cwd") = JUndefined ->
     get_prop params (str "extra_args") = JUndefined ->
     validateParams params = Ok (mkParams (trim s) None None None)) /\
  includes (str "required")
    (str "Prompt parameter is required and must be a string") = true /\
  includes (str "too long") (str "Prompt too long (max 50,000 characters)") = true.
Proof.
  intros params p.
  assert (Hpass : forall s, p = JString s -> trim s <> [] -> len (trim s) <= 50000 ->
     validateParams params
     = (oi <- validate_output_instructions (get_prop params (str "output_instructions")) ;;
        wd <- validate_cwd (get_prop params (str "cwd")) ;;
        ea <- validate_extra_args (get_prop params (str "extra_args")) ;;
        Ok (mkParams (trim s) oi wd ea))).
  { intros s Hp Hne Hle. unfold validateParams. fold params. fold p. rewrite Hp.
    assert (Hs : s <> []) by (intros ->; apply Hne; reflexivity).
    destruct s as [|c s]; [contradiction|]. cbn [truthy typeof_object is_string params negb orb].
    destruct (eqs (trim (c :: s)) []) eqn:E; [apply eqs_nil in E; contradiction|].
    apply gtb_false_le in Hle. rewrite Hle. reflexivity. }
  repeat split.
  - intros H. unfold validateParams. fold params. fold p.
    destruct H as [H| ->]; [|reflexivity].
    assert (E : (negb (truthy p) || negb (is_string p))%bool = true).
    { destruct p; simpl; rewrite ?orb_true_r; try reflexivity.
      exfalso. eapply H. reflexivity. }
    rewrite E. reflexivity.
  - intros s Hp Hs Ht. unfold validateParams. fold params. fold p. rewrite Hp.
    destruct s as [|c s]; [contradiction|]. cbn [truthy typeof_object is_string params negb orb].
    rewrite Ht. reflexivity.
  - intros s Hp Hlen. unfold validateParams. fold params. fold p. rewrite Hp.
    assert (Hne : trim s <> []) by (intros E; rewrite E in Hlen; unfold len in Hlen; simpl in Hlen; lia).
    assert (Hs : s <> []) by (intros ->; apply Hne; reflexivity).
    destruct s as [|c s]; [contradiction|]. cbn [truthy typeof_object is_string params negb orb].
    destruct (eqs (trim (c :: s)) []) eqn:E; [apply eqs_nil in E; contradiction|].
    apply gtb_true_gt in Hlen. rewrite Hlen. reflexivity.
  - exact Hpass.
  - intros s Hp Hne Hle Ho Hc He. rewrite (Hpass s Hp Hne Hle), Ho, Hc, He. reflexivity.
Qed.

Lemma validateParams_prompt_witness :
  validateParams (prompt_only (str "  check foo.ts "))
  = Ok (mkParams (str "check foo.ts") None None None).
Proof.
  destruct (validateParams_prompt [(str "prompt", JString (str "  check foo.ts "))])
    as (_ & _ & _ & _ & H & _).
  apply (H (str "  check foo.ts ")); try reflexivity.
  - vm_compute. discriminate.
  - vm_compute. discriminate.
Defined.

(** A prompt of exactly 50,000 letters is accepted, one of 50,001
    letters is not. *)
Example prompt_of_50000_accepted :
  accepted_length (validateParams (prompt_only (repeat 97%N (N.to_nat 50000))))
  = Some 50000
  /\ accepted_length (validateParams (prompt_only (repeat 97%N (N.to_nat 50001))))
     = None.
Proof. split; vm_compute; reflexivity. Qed.

(** C5 as stated fails: the length is taken after trimming, so a prompt
    of 50,001 code units that starts with a space is accepted. *)
Lemma padded_prompt_accepted :
  ~ (forall s, len s > 50000 ->
       exists e, validateParams (prompt_only s) = Throw e).
Proof.
  intros H. destruct (H padded_prompt) as [e He].
  - vm_compute. reflexivity.
  - assert (Hacc : accepted_length (validateParams (prompt_only padded_prompt))
                   = Some 50000) by (vm_compute; reflexivity).
    rewrite He in Hacc. discriminate Hacc.
Qed.

End ToolFacts.

(** ** Loading agent definitions (AgentManager.ts) *)

Module LoaderFacts.
Import Js JsFacts AgentManager Fixtures Notions.

(** C3, on the code.  For the file of the repository's own test (front
    matter [name: advanced-agent], [tools: tool1, tool2, tool3],
    [autoApprovalMode: true], [model: claude-3], [agentType: claude])
    the loader finds the agent and its [agentType] is [claude], but
    [tools] is the unsplit string [tool1, tool2, tool3], not the list
    of three names, and [autoApprovalMode] is absent. *)
Theorem advanced_agent_tools_not_split :
  exists a,
    getAgent (directory [file "advanced-agent.md" advanced_agent_md])
             (str "advanced-agent") = Ok (Some a) /\
    name a = str "advanced-agent" /\
    agentType a = Some (str "claude") /\
    tools a = Some (JString (str "tool1, tool2, tool3")) /\
    tools a <> Some (JArray [JString (str "tool1"); JString (str "tool2");
                             JString (str "tool3")]) /\
    autoApprovalMode a = None /\
    autoApprovalMode a <> Some true.
Proof.
  eexists. split; [vm_compute; reflexivity|].
  repeat split; simpl; discriminate.
Qed.

(** Whatever the file, the loader never splits [tools] and never sets
    [autoApprovalMode]. *)
Lemma loader_tools_and_approval (f : FileEntry) (a : AgentDefinition) :
  loadAgentFromFile f = Some a ->
  autoApprovalMode a = None /\
  (forall v, tools a = Some v -> exists s, v = JString s).
Proof.
  unfold loadAgentFromFile.
  destruct (readFile f) as [text|]; [|discriminate].
  destruct (stat_mtime f) as [mtime|]; [|discriminate].
  destruct (parseFrontmatter text) as [fm body].
  intros [= <-]. simpl. split; [reflexivity|].
  intros v. destruct (when_truthy (fm_tools fm)); simpl; [|discriminate].
  intros [= <-]. eexists. reflexivity.
Qed.

(** *** The [agentType] key *)

Lemma store_field_agentType (fm : Frontmatter) (v : jstring) :
  fm_agentType (store_field fm (str "agentType") v) =
  if (eqs v (str "cursor") || eqs v (str "claude"))%bool
  then Some v else fm_agentType fm.
Proof.
  destruct fm as [n d t m c a]. unfold store_field.
  change (eqs (str "agentType") (str "name")) with false.
  change (eqs (str "agentType") (str "description")) with false.
  change (eqs (str "agentType") (str "tools")) with false.
  change (eqs (str "agentType") (str "model")) with false.
  change (eqs (str "agentType") (str "color")) with false.
  change (eqs (str "agentType") (str "agentType")) with true.
  cbv iota.
  destruct (eqs v (str "cursor") || eqs v (str "claude"))%bool; reflexivity.
Qed.

Lemma store_field_engine (fm : Frontmatter) (key v : jstring) :
  engine_or_absent (fm_agentType fm) ->
  engine_or_absent (fm_agentType (store_field fm key v)).
Proof.
  destruct fm as [n d t m c a]. unfold store_field. cbn [fm_agentType]. intros Ha.
  do 5 (match goal with
        | |- context [if eqs key ?k then _ else _] =>
            destruct (eqs key k); [exact Ha|]
        end).
  destruct (eqs key (str "agentType")); [|exact Ha].
  destruct (eqs v (str "cursor")) eqn:E1; cbn [orb].
  - apply eqs_true_iff in E1. left. exact E1.
  - destruct (eqs v (str "claude")) eqn:E2; [|exact Ha].
    apply eqs_true_iff in E2. right. exact E2.
Qed.

Lemma parse_line_engine (fm : Frontmatter) (line : jstring) :
  engine_or_absent (fm_agentType fm) ->
  engine_or_absent (fm_agentType (parse_line fm line)).
Proof.
  intros Ha. unfold parse_line.
  destruct (match_key_value line) as [[k v]|]; [|exact Ha].
  destruct (trim k); [exact Ha|]. destruct (trim v); [exact Ha|].
  now apply store_field_engine.
Qed.

(** Parsing never fails and never keeps an engine name other than
    [cursor] and [claude]. *)
Lemma parseFrontmatter_engine (text : jstring) :
  engine_or_absent (fm_agentType (fst (parseFrontmatter text))).
Proof.
  unfold parseFrontmatter.
  destruct (match_frontmatter text) as [[fmText body]|]; simpl; [|exact I].
  destruct fmText as [|c r]; simpl fst; [exact I|].
  generalize (split_lines (c :: r)).
  assert (H0 : engine_or_absent (fm_agentType emptyFrontmatter)) by exact I.
  revert H0. generalize emptyFrontmatter.
  intros fm H l. revert fm H.
  induction l as [|x l IH]; intros fm H; simpl; [exact H|].
  apply IH. now apply parse_line_engine.
Qed.


(** *** What is listed *)

Lemma keyed_by_name_set m a :
  keyed_by_name m -> keyed_by_name (Map.set (name a) a m).
Proof.
  intros Hm k b. destruct (eqs (name a) k) eqn:E.
  - apply eqs_true_iff in E. subst k. rewrite get_set_same. now intros [= <-].
  - apply eqs_false_iff in E. rewrite get_set_other by assumption. apply Hm.
Qed.

Lemma load_files_keyed files : forall m,
  keyed_by_name m -> keyed_by_name (load_files files m).
Proof.
  induction files as [|f files IH]; intros m Hm; simpl; [assumption|].
  destruct (loadAgentFromFile f) as [a|]; apply IH; auto.
  now apply keyed_by_name_set.
Qed.





End LoaderFacts.

(** ** The tool registry (McpServer.ts) *)

Module RegistryFacts.
Import Js JsFacts Fixtures McpServer Notions.

Lemma claimants_app T l1 l2 : claimants T (l1 ++ l2) = claimants T l1 ++ claimants T l2.
Proof. apply filter_app. Qed.

Lemma claimants_one_same a : claimants (toolName_of a) [a] = [a].
Proof. unfold claimants. cbn [filter]. now rewrite eqs_refl. Qed.

Lemma claimants_one_other T a : toolName_of a <> T -> claimants T [a] = [].
Proof.
  intros H. unfold claimants. cbn [filter]. apply eqs_false_iff in H. now rewrite H.
Qed.

Lemma last_opt_snoc {A} (l : list A) (x : A) : last_opt (l ++ [x]) = Some x.
Proof. unfold last_opt. now rewrite rev_app_distr. Qed.

Lemma last_opt_nil_iff {A} (l : list A) : last_opt l = None <-> l = [].
Proof.
  unfold last_opt. split.
  - intros H. destruct (rev l) eqn:E; [|discriminate].
    apply (f_equal (@rev A)) in E. now rewrite rev_involutive in E.
  - intros ->. reflexivity.
Qed.

Lemma last_opt_split {A} (l : list A) (x : A) :
  last_opt l = Some x -> exists l', l = l' ++ [x].
Proof.
  unfold last_opt. intros H. destruct (rev l) as [|y r] eqn:E; [discriminate|].
  injection H as ->. exists (rev r).
  apply (f_equal (@rev A)) in E. rewrite rev_involutive in E. exact E.
Qed.

Lemma log_level lv msg md st : logLevel (log lv msg md st) = logLevel st.
Proof. unfold log. destruct (_ >=? _); reflexivity. Qed.

Lemma log_tools lv msg md st : dynamicTools (log lv msg md st) = dynamicTools st.
Proof. unfold log. destruct (_ >=? _); reflexivity. Qed.

Lemma log_console lv msg md st :
  console (log lv msg md st) =
  console st ++ (if logLevels lv >=? logLevels (logLevel st)
                 then [logEntry lv msg md] else []).
Proof. unfold log. destruct (_ >=? _); simpl; [reflexivity|now rewrite app_nil_r]. Qed.

(** The start: nothing seen, nothing registered. *)
Lemma consistent_start env st :
  dynamicTools st = Map.empty -> consistent env [] Map.empty st.
Proof.
  intros H. split; intros; rewrite ?H; try reflexivity. constructor.
Qed.

Lemma consistent_log env seen tn lv msg md st :
  consistent env seen tn st -> consistent env seen tn (log lv msg md st).
Proof.
  intros [H1 H2 H3]. split; try (intros T); rewrite ?log_tools; auto.
Qed.

(** One turn of the loop. *)
Lemma register_step env seen tn st a :
  consistent env seen tn st ->
  exists tn' st',
    (forall rest, register_agents env (a :: rest) tn st = register_agents env rest tn' st') /\
    consistent env (seen ++ [a]) tn' st' /\
    logLevel st' = logLevel st /\
    console st' =
      console st ++
      match claimants (toolName_of a) seen with
      | [] => []
      | _ :: _ =>
          if logLevels warn >=? logLevels (logLevel st)
          then [logEntry warn "Agent tool name collision detected"
                  (collision_warning (toolName_of a)
                     (colliding_names (toolName_of a) (seen ++ [a])))]
          else []
      end.
Proof.
  intros [Hn Ht Hk].
  set (T := toolName_of a).
  assert (Hupd : forall (st1 : server) tn1,
             dynamicTools st1 = dynamicTools st ->
             (forall T', Map.get T' tn1 =
                         match colliding_names T' (seen ++ [a]) with
                         | [] => None | l => Some l end) ->
             consistent env (seen ++ [a]) tn1 (set_tool T (tool_of env a) st1)).
  { intros st1 tn1 Hd Hn1. split; [exact Hn1| |].
    - intros T'. simpl. rewrite Hd, claimants_app.
      destruct (eqs T T') eqn:E.
      + apply eqs_true_iff in E. subst T'. rewrite get_set_same.
        unfold T. rewrite claimants_one_same, last_opt_snoc. reflexivity.
      + apply eqs_false_iff in E. rewrite get_set_other by assumption.
        rewrite claimants_one_other by assumption. rewrite app_nil_r. apply Ht.
    - simpl. rewrite Hd. now apply NoDup_keys_set. }
  assert (Hnames : forall T',
             colliding_names T' (seen ++ [a]) =
             colliding_names T' seen ++ (if eqs T T' then [AgentManager.name a] else [])).
  { intros T'. unfold colliding_names. rewrite claimants_app, map_app. f_equal.
    unfold claimants. cbn [filter]. fold T. destruct (eqs T T'); reflexivity. }
  destruct (claimants T seen) as [|c0 cs] eqn:Ec.
  - (* a fresh tool name *)
    exists (Map.set T [AgentManager.name a] tn), (set_tool T (tool_of env a) st).
    split; [|split; [|split]].
    + intros rest. simpl.
      change (DynamicAgentTool.sanitizeToolName (AgentManager.name a)) with T.
      unfold Map.has. rewrite Ht, Ec. reflexivity.
    + apply Hupd; [reflexivity|]. intros T'. rewrite Hnames.
      destruct (eqs T T') eqn:E.
      * apply eqs_true_iff in E. subst T'. rewrite get_set_same.
        unfold colliding_names. rewrite Ec. reflexivity.
      * apply eqs_false_iff in E. rewrite get_set_other by assumption.
        rewrite app_nil_r. apply Hn.
    + reflexivity.
    + simpl. now rewrite app_nil_r.
  - (* a collision *)
    set (known := colliding_names T seen).
    assert (Hknown : known = AgentManager.name c0 :: List.map AgentManager.name cs)
      by (unfold known, colliding_names; now rewrite Ec).
    set (existing := known ++ [AgentManager.name a]).
    set (st1 := log warn "Agent tool name collision detected"
                  (collision_warning T existing) st).
    exists (Map.set T existing tn), (set_tool T (tool_of env a) st1).
    assert (Hex : colliding_names T (seen ++ [a]) = existing).
    { rewrite Hnames, eqs_refl. reflexivity. }
    split; [|split; [|split]].
    + intros rest. simpl.
      change (DynamicAgentTool.sanitizeToolName (AgentManager.name a)) with T.
      unfold Map.has. rewrite Ht, Ec.
      destruct (last_opt (c0 :: cs)) eqn:El;
        [|apply last_opt_nil_iff in El; discriminate].
      simpl option_map. cbv iota.
      rewrite Hn. fold known. rewrite Hknown. cbv iota. simpl bind.
      rewrite <- Hknown. reflexivity.
    + apply Hupd; [apply log_tools|]. intros T'. rewrite Hnames.
      destruct (eqs T T') eqn:E.
      * apply eqs_true_iff in E. subst T'. rewrite get_set_same.
        fold known. unfold existing. rewrite Hknown. reflexivity.
      * apply eqs_false_iff in E. rewrite get_set_other by assumption.
        rewrite app_nil_r. apply Hn.
    + simpl. apply log_level.
    + simpl. unfold st1. rewrite log_console, Hex. reflexivity.
Qed.

(** The whole loop, started in a consistent state: it does not throw,
    stays consistent, and logs a warning for every agent whose tool
    name was taken already, if warnings are let through. *)
Lemma register_all env agents : forall seen tn st,
  consistent env seen tn st ->
  exists tn' st' extra,
    register_agents env agents tn st = (Ok tn', st') /\
    consistent env (seen ++ agents) tn' st' /\
    logLevel st' = logLevel st /\
    console st' = console st ++ extra /\
    (forall l1 a2 l2, agents = l1 ++ a2 :: l2 ->
       claimants (toolName_of a2) (seen ++ l1) <> [] ->
       logLevels warn >= logLevels (logLevel st) ->
       In (logEntry warn "Agent tool name collision detected"
             (collision_warning (toolName_of a2)
                (colliding_names (toolName_of a2) (seen ++ l1 ++ [a2])))) extra).
Proof.
  induction agents as [|a rest IH]; intros seen tn st Hc.
  - exists tn, st, []. rewrite !app_nil_r.
    split; [reflexivity|]. split; [exact Hc|]. split; [reflexivity|].
    split; [reflexivity|].
    intros l1 a2 l2 H. destruct l1; discriminate H.
  - destruct (register_step a Hc) as (tn1 & st1 & Hstep & Hc1 & Hl1 & Hcon1).
    destruct (IH _ _ _ Hc1) as (tn2 & st2 & extra & Hrun & Hc2 & Hl2 & Hcon2 & Hwarn).
    eexists tn2, st2, (_ ++ extra).
    split; [rewrite Hstep; exact Hrun|].
    split; [now rewrite <- app_assoc in Hc2|].
    split; [congruence|].
    split; [rewrite Hcon2, Hcon1, <- app_assoc; reflexivity|].
    intros l1 a2 l2 Hsplit Hclaim Hlevel.
    destruct l1 as [|b l1].
    + simpl in Hsplit. injection Hsplit as <- <-.
      rewrite app_nil_r in Hclaim. apply in_or_app. left.
      destruct (claimants (toolName_of a) seen); [contradiction|].
      destruct (logLevels warn >=? logLevels (logLevel st)) eqn:E.
      * simpl. left. reflexivity.
      * exfalso. rewrite Z.geb_leb, Z.leb_gt in E. lia.
    + simpl in Hsplit. injection Hsplit as <- ->.
      apply in_or_app. right.
      replace (seen ++ (a :: l1) ++ [a2]) with ((seen ++ [a]) ++ l1 ++ [a2])
        by (rewrite <- app_assoc; reflexivity).
      eapply Hwarn; [reflexivity| |congruence].
      rewrite <- app_assoc. exact Hclaim.
Qed.

Lemma error_always_logged (l : LogLevel) : (logLevels error >=? logLevels l) = true.
Proof. destruct l; reflexivity. Qed.

(** The registry build on an empty registry, the directory being
    readable: what it returns and leaves behind. *)
Lemma initialize_from_empty env st agents :
  dynamicTools st = Map.empty ->
  AgentManager.listAgents (DynamicAgentTool.fs (tool_env env)) = Ok agents ->
  exists tn st1 extra,
    consistent env agents tn st1 /\
    fst (initializeDynamicTools env st) = Ok tt /\
    dynamicTools (snd (initializeDynamicTools env st)) = dynamicTools st1 /\
    (forall e, In e extra -> In e (console (snd (initializeDynamicTools env st)))) /\
    (forall l1 a2 l2, agents = l1 ++ a2 :: l2 ->
       claimants (toolName_of a2) l1 <> [] ->
       logLevels warn >= logLevels (logLevel st) ->
       In (logEntry warn "Agent tool name collision detected"
             (collision_warning (toolName_of a2)
                (colliding_names (toolName_of a2) (l1 ++ [a2])))) extra) /\
    (forall c, In c (Map.entries tn) -> Z.of_nat (List.length (snd c)) > 1 ->
       exists collisions,
         In c collisions /\
         In (logEntry error "Agent tool name collisions detected during initialization"
               (collision_summary collisions))
            (console (snd (initializeDynamicTools env st)))).
Proof.
  intros Hempty Hlist.
  set (st0 := log debug "Initializing dynamic agent tools" [] st).
  assert (Hc0 : consistent env [] Map.empty st0)
    by (apply consistent_log, consistent_start, Hempty).
  destruct (register_all agents Hc0) as (tn & st1 & extra & Hrun & Hc & Hl & Hcon & Hwarn).
  simpl in Hc, Hwarn.
  exists tn, st1, extra.
  unfold initializeDynamicTools, initialize_try. fold st0. rewrite Hlist, Hrun.
  set (collisions := filter _ (Map.entries tn)).
  set (st2 := if Z.of_nat (List.length collisions) >? 0 then _ else st1).
  cbn [fst snd].
  assert (Htools2 : dynamicTools st2 = dynamicTools st1).
  { unfold st2. destruct (_ >? 0); [apply log_tools|reflexivity]. }
  assert (Hcon2 : forall e, In e (console st1) -> In e (console st2)).
  { unfold st2. destruct (_ >? 0); [|auto].
    intros e He. rewrite log_console. apply in_or_app. now left. }
  split; [exact Hc|]. split; [reflexivity|].
  split; [rewrite log_tools; exact Htools2|].
  split.
  { intros e He. rewrite log_console. apply in_or_app. left. apply Hcon2.
    rewrite Hcon. apply in_or_app. now right. }
  split.
  { intros l1 a2 l2 Hs Hcl Hlv. eapply Hwarn; eauto.
    unfold st0. rewrite log_level. exact Hlv. }
  intros c Hin Hlen. exists collisions.
  assert (Hc_in : In c collisions).
  { unfold collisions. apply filter_In. split; [exact Hin|].
    apply Z.gtb_lt. lia. }
  split; [exact Hc_in|].
  rewrite log_console. apply in_or_app. left.
  unfold st2.
  destruct (Z.of_nat (List.length collisions) >? 0) eqn:E.
  - rewrite log_console, error_always_logged. apply in_or_app. right. now left.
  - exfalso. destruct collisions; [contradiction|].
    rewrite Z.gtb_ltb, Z.ltb_ge in E. simpl List.length in E. lia.
Qed.


Lemma claimants_In T a agents :
  In a agents -> toolName_of a = T -> In a (claimants T agents).
Proof.
  intros Hin <-. apply filter_In. split; [assumption|apply eqs_refl].
Qed.



Lemma colliding_directory_listing :
  AgentManager.listAgents colliding_directory
  = Ok [my_agent_underscore; my_agent_space; my_agent_hyphen].
Proof. vm_compute. reflexivity. Qed.



(** *** A build that throws *)

(** The build never hands a throw to its caller. *)
Lemma initializeDynamicTools_returns env st :
  fst (initializeDynamicTools env st) = Ok tt.
Proof.
  unfold initializeDynamicTools.
  destruct (initialize_try env st) as [[[]|e] st1] eqn:E; reflexivity.
Qed.

(** C7.  If the registry build throws, be it while listing the agents
    or in the middle of the loop, the build still returns normally and
    the registry it leaves is empty. *)
Theorem failed_build_leaves_no_tools env st e st1 :
  initialize_try env st = (Throw e, st1) ->
  fst (initializeDynamicTools env st) = Ok tt /\
  dynamicTools (snd (initializeDynamicTools env st)) = Map.empty /\
  Map.size (dynamicTools (snd (initializeDynamicTools env st))) = 0 /\
  Map.values (dynamicTools (snd (initializeDynamicTools env st))) = [].
Proof.
  intros H. unfold initializeDynamicTools. rewrite H. cbn [fst snd].
  repeat split.
Qed.

(** A second build finds the tool of [my-agent] already registered:
    after two agents are in, the call of [getAgentName] throws; the
    registry, which held two tools at that point, ends up empty. *)
Lemma failed_build_leaves_no_tools_witness :
  exists st1,
    initialize_try (server_env colliding_directory) stale_server
    = (Throw (ErrorObj (str "existingTool.getAgentName is not a function")), st1) /\
    Map.size (dynamicTools st1) = 2 /\
    Map.size (dynamicTools (snd (initializeDynamicTools (server_env colliding_directory)
                                   stale_server))) = 0.
Proof.
  eexists. split; [vm_compute; reflexivity|]. split; [reflexivity|].
  eapply (@failed_build_leaves_no_tools (server_env colliding_directory) stale_server).
  vm_compute. reflexivity.
Defined.

Example unreadable_directory_leaves_no_tools :
  initializeDynamicTools (server_env missing_directory) (fresh_server warn)
  = (Ok tt,
     mkServer warn Map.empty
       [logEntry warn "Failed to initialize dynamic agent tools (server will have 0 tools)"
          [(str "error", JString (str "Failed to load agents from directory: /nowhere"))]]).
Proof. vm_compute. reflexivity. Qed.

(** *** Names that [getAgent] refuses *)




End RegistryFacts.

(** ** Trimming *)

Module TrimFacts.
Import Js JsFacts.

Lemma trimStart_nil_iff (s : jstring) :
  trimStart s = [] <-> forallb is_space s = true.
Proof.
  induction s as [|c s IH]; simpl; [tauto|].
  destruct (is_space c); simpl; [exact IH|]. split; discriminate.
Qed.

Lemma trimStart_head (s : jstring) c r :
  trimStart s = c :: r -> is_space c = false.
Proof.
  induction s as [|x s IH]; simpl; [discriminate|].
  destruct (is_space x) eqn:E; [exact IH|]. now intros [= <- _].
Qed.

Lemma trimStart_forallb (s : jstring) :
  forallb is_space (trimStart s) = forallb is_space s.
Proof.
  induction s as [|x s IH]; simpl; [reflexivity|].
  destruct (is_space x) eqn:E; simpl; [exact IH|now rewrite E].
Qed.

Lemma trimEnd_nil_iff (s : jstring) :
  trimEnd s = [] <-> forallb is_space s = true.
Proof.
  induction s as [|c s IH]; simpl; [tauto|].
  destruct (trimEnd s) as [|y r].
  - destruct (is_space c); simpl; [tauto|]. split; discriminate.
  - split; [discriminate|]. intros H. apply andb_true_iff in H as [_ H].
    apply IH in H. discriminate.
Qed.

Lemma trimEnd_head (c : char16) (r : jstring) :
  trimEnd (c :: r) <> [] -> exists r', trimEnd (c :: r) = c :: r'.
Proof.
  simpl. destruct (trimEnd r); [|eauto].
  destruct (is_space c); [congruence|eauto].
Qed.

Lemma trimEnd_idempotent (s : jstring) : trimEnd (trimEnd s) = trimEnd s.
Proof.
  induction s as [|c s IH]; simpl; [reflexivity|].
  destruct (trimEnd s) as [|y r] eqn:E.
  - destruct (is_space c) eqn:Ec; simpl; [reflexivity|now rewrite Ec].
  - change (trimEnd (c :: y :: r))
      with (match trimEnd (y :: r) with
            | [] => if is_space c then [] else [c]
            | r' => c :: r'
            end).
    rewrite IH. reflexivity.
Qed.

(** A string trims to nothing exactly when it is white space only. *)
Lemma trim_nil_iff (s : jstring) : trim s = [] <-> forallb is_space s = true.
Proof.
  unfold trim. rewrite trimEnd_nil_iff, trimStart_forallb. tauto.
Qed.

(** Trimming twice is trimming once. *)
Lemma trim_idempotent (s : jstring) : trim (trim s) = trim s.
Proof.
  unfold trim.
  destruct (trimStart s) as [|c r] eqn:E; [reflexivity|].
  pose proof (trimStart_head _ E) as Hc.
  destruct (trimEnd (c :: r)) as [|c' r'] eqn:E'; [reflexivity|].
  assert (Hne : trimEnd (c :: r) <> []) by (rewrite E'; discriminate).
  destruct (trimEnd_head c r Hne) as [r'' Hr]. rewrite E' in Hr. injection Hr as -> ->.
  cbn [trimStart]. rewrite Hc. rewrite <- E'. apply trimEnd_idempotent.
Qed.

End TrimFacts.

(** ** More on tool names *)

Module SanitizerFacts.
Import Js JsFacts DynamicAgentTool Fixtures Notions.

Lemma underscore_is_tool_char : is_tool_char 95%N = true.
Proof. reflexivity. Qed.

Lemma replace_invalid_valid (s : jstring) :
  forallb is_tool_char (replace_invalid s) = true.
Proof.
  induction s as [|c s IH]; simpl; [reflexivity|].
  rewrite IH, andb_true_r.
  destruct (is_tool_char c) eqn:E; [exact E|reflexivity].
Qed.

(** Every code unit of a tool name is a letter, a digit, an underscore
    or a hyphen, whatever the agent is called. *)
Theorem sanitizeToolName_only_valid (agentName : jstring) :
  forallb is_tool_char (sanitizeToolName agentName) = true /\
  startsWith (str "agent_") (sanitizeToolName agentName) = true.
Proof.
  unfold sanitizeToolName. split.
  - rewrite forallb_app, replace_invalid_valid. reflexivity.
  - reflexivity.
Qed.

Lemma replace_invalid_id_iff (s : jstring) :
  replace_invalid s = s <-> forallb is_tool_char s = true.
Proof.
  induction s as [|c s IH]; simpl; [tauto|].
  destruct (is_tool_char c) eqn:E; simpl.
  - rewrite <- IH. split; [now intros [= ->]|intros ->; reflexivity].
  - split; [|discriminate]. intros [= <- _]. discriminate E.
Qed.

(** A name made of valid code units only is kept as it is, and only
    such a name is; so two such names never share a tool name. *)
Theorem sanitizeToolName_keeps_valid_names (a b : jstring) :
  (sanitizeToolName a = str "agent_" ++ a <-> forallb is_tool_char a = true) /\
  (forallb is_tool_char a = true -> forallb is_tool_char b = true ->
   sanitizeToolName a = sanitizeToolName b -> a = b).
Proof.
  split.
  - unfold sanitizeToolName. rewrite <- replace_invalid_id_iff.
    split; [apply app_inv_head|intros ->; reflexivity].
  - intros Ha Hb H. apply app_inv_head in H.
    apply replace_invalid_id_iff in Ha, Hb. congruence.
Qed.

Lemma sanitizeToolName_keeps_valid_names_witness :
  sanitizeToolName (str "code-reviewer") = str "agent_code-reviewer".
Proof.
  destruct (sanitizeToolName_keeps_valid_names (str "code-reviewer") (str "code-reviewer"))
    as [H _].
  apply H. reflexivity.
Defined.

(** Two names get the same tool name exactly when they have the same
    length and, place by place, either agree or both have a code unit
    that ends up as an underscore. *)
Theorem sanitizeToolName_collision_iff (a b : jstring) :
  sanitizeToolName a = sanitizeToolName b <-> same_shape a b.
Proof.
  unfold sanitizeToolName, same_shape. split.
  - intros H. apply app_inv_head in H. revert b H.
    induction a as [|x a IH]; intros [|y b] H; simpl in H; try discriminate; constructor.
    + injection H as Hh _. unfold blank.
      destruct (is_tool_char x) eqn:Ex, (is_tool_char y) eqn:Ey; subst; auto.
    + apply IH. now injection H.
  - intros H. f_equal. induction H as [|x y a b Hxy _ IH]; simpl; [reflexivity|].
    f_equal; [|exact IH].
    destruct Hxy as [->|[[Hx| ->] [Hy| ->]]]; try reflexivity;
      rewrite ?Hx, ?Hy; reflexivity.
Qed.

Example underscore_and_space_collide :
  sanitizeToolName (str "my_agent") = sanitizeToolName (str "my agent")
  /\ sanitizeToolName (str "my-agent") <> sanitizeToolName (str "my agent").
Proof. split; [reflexivity|discriminate]. Qed.

End SanitizerFacts.

(** ** More on parameter validation *)

Module ValidationFacts.
Import Js JsFacts TrimFacts DynamicAgentTool Fixtures Notions ToolFacts.

Lemma validate_args_Ok args : forall index l,
  validate_args index args = Ok l ->
  args = List.map JString l /\ Forall (fun a => len a <= 1000) l.
Proof.
  induction args as [|a args IH]; intros index l; simpl.
  - intros [= <-]. split; [reflexivity|constructor].
  - destruct a; try discriminate.
    destruct (len s >? 1000) eqn:E; [discriminate|].
    destruct (validate_args (S index) args) as [r|] eqn:Er; simpl; [|discriminate].
    intros [= <-]. destruct (IH _ _ Er) as [-> Hall].
    split; [reflexivity|]. constructor; [|exact Hall]. now apply gtb_false_le.
Qed.

(** What [validateParams] returns was checked: the prompt is the
    trimmed prompt of the call, not empty, at most 50,000 code units
    long and trimmed; each optional field is absent in the call or the
    string (the array of strings) of the call, within its limits. *)
Theorem validateParams_result_is_valid params v :
  validateParams params = Ok v ->
  (exists raw, get_prop params (str "prompt") = JString raw /\ prompt v = trim raw) /\
  prompt v <> [] /\ len (prompt v) <= 50000 /\ trim (prompt v) = prompt v /\
  match output_instructions v with
  | Some s => get_prop params (str "output_instructions") = JString s /\ len s <= 5000
  | None => get_prop params (str "output_instructions") = JUndefined
  end /\
  match cwd v with
  | Some s => get_prop params (str "cwd") = JString s /\ len s <= 1000 /\
              includes (str "..") s = false /\ includes [0%N] s = false
  | None => get_prop params (str "cwd") = JUndefined
  end /\
  match extra_args v with
  | Some l => get_prop params (str "extra_args") = JArray (List.map JString l) /\
              Z.of_nat (List.length l) <= 20 /\ Forall (fun a => len a <= 1000) l
  | None => get_prop params (str "extra_args") = JUndefined
  end.
Proof.
  unfold validateParams, throwError.
  destruct (negb (truthy params) || negb (typeof_object params))%bool; [discriminate|].
  destruct (get_prop params (str "prompt")) as [| | | | | |raw| |] eqn:Ep;
    try (simpl; rewrite ?orb_true_r; discriminate).
  destruct (negb (truthy (JString raw)) || negb (is_string (JString raw)))%bool;
    [discriminate|].
  destruct (eqs (trim raw) []) eqn:Ee; [discriminate|].
  destruct (len (trim raw) >? 50000) eqn:El; [discriminate|].
  destruct (validate_output_instructions _) as [oi|] eqn:Eo; [|discriminate].
  destruct (validate_cwd _) as [wd|] eqn:Ec; [|discriminate].
  destruct (validate_extra_args _) as [ea|] eqn:Ea; [|discriminate].
  simpl. intros [= <-]. simpl.
  split; [exists raw; auto|].
  split; [now apply eqs_false_iff in Ee|].
  split; [now apply gtb_false_le|].
  split; [apply trim_idempotent|].
  split; [|split].
  - unfold validate_output_instructions, throwError in Eo.
    destruct (get_prop params (str "output_instructions")); try discriminate.
    + now injection Eo as <-.
    + destruct (len s >? 5000) eqn:E; [discriminate|].
      injection Eo as <-. split; [reflexivity|now apply gtb_false_le].
  - unfold validate_cwd, throwError in Ec.
    destruct (get_prop params (str "cwd")); try discriminate.
    + now injection Ec as <-.
    + destruct (len s >? 1000) eqn:E; [discriminate|].
      destruct (includes (str "..") s || includes [0%N] s)%bool eqn:Ei; [discriminate|].
      injection Ec as <-. apply orb_false_iff in Ei as [E1 E2].
      repeat split; auto. now apply gtb_false_le.
  - unfold validate_extra_args, throwError in Ea.
    destruct (get_prop params (str "extra_args")); try discriminate.
    + now injection Ea as <-.
    + destruct (Z.of_nat (List.length xs) >? 20) eqn:E; [discriminate|].
      destruct (validate_args 0 xs) as [l|] eqn:Ev; simpl in Ea; [|discriminate].
      injection Ea as <-. destruct (validate_args_Ok _ _ Ev) as [-> Hall].
      split; [reflexivity|]. split; [|exact Hall].
      apply gtb_false_le in E. now rewrite length_map in E.
Qed.

Lemma validateParams_result_is_valid_witness :
  exists v,
    validateParams (JObject [(str "prompt", JString (str " review it "));
                             (str "cwd", JString (str "/work"))]) = Ok v /\
    prompt v = str "review it" /\ cwd v = Some (str "/work").
Proof.
  eexists. split; [vm_compute; reflexivity|].
  destruct (@validateParams_result_is_valid
              (JObject [(str "prompt", JString (str " review it "));
                        (str "cwd", JString (str "/work"))])
              (mkParams (str "review it") None (Some (str "/work")) None) eq_refl)
    as ((raw & Hraw & Hp) & _).
  split; reflexivity.
Defined.

(** Anything but an object is turned down as such; an array passes for
    an object and is turned down for its missing prompt. *)
Theorem validateParams_rejects_non_objects (params : value) :
  match params with
  | JObject _ => True
  | JArray _ =>
      validateParams params
      = throwError "Prompt parameter is required and must be a string"
  | _ => validateParams params = throwError "Invalid parameters: expected object"
  end.
Proof.
  destruct params; try exact I; unfold validateParams; simpl;
    rewrite ?orb_true_r; reflexivity.
Qed.

(** The loop over [extra_args] stops at the first entry that is not a
    string of at most 1,000 code units and names its index. *)
Theorem validate_args_first_offender (good : list jstring) (bad : value)
    (rest : list value) (index : nat) :
  Forall (fun a => len a <= 1000) good ->
  ~ short_string bad ->
  validate_args index (List.map JString good ++ bad :: rest)
  = Throw (ErrorObj
             (str "Extra argument at index " ++ dec (index + List.length good)
              ++ if is_string bad
                 then str " too long (max 1000 characters)"
                 else str " must be a string")).
Proof.
  intros Hgood Hbad. revert index.
  induction Hgood as [|a good Ha _ IH]; intros index.
  - simpl. rewrite Nat.add_0_r.
    destruct bad; try reflexivity.
    destruct (len s >? 1000) eqn:E; [reflexivity|].
    exfalso. apply Hbad. exists s. split; [reflexivity|now apply gtb_false_le].
  - simpl. apply gtb_false_le in Ha. rewrite Ha.
    rewrite IH. simpl. now rewrite Nat.add_succ_r.
Qed.

Lemma validate_args_first_offender_witness :
  validate_extra_args (JArray [JString (str "--verbose"); JNum 3; JNull])
  = Throw (ErrorObj (str "Extra argument at index 1 must be a string")).
Proof.
  unfold validate_extra_args. simpl (_ >? 20). cbv iota.
  change [JString (str "--verbose"); JNum 3; JNull]
    with (List.map JString [str "--verbose"] ++ JNum 3 :: [JNull]).
  rewrite (@validate_args_first_offender [str "--verbose"] (JNum 3) [JNull] 0).
  - reflexivity.
  - repeat constructor. vm_compute. discriminate.
  - intros (s & Hs & _). discriminate Hs.
Defined.

End ValidationFacts.

(** ** More on [execute] *)

Module ExecuteFacts.
Import Js JsFacts DynamicAgentTool Fixtures Notions ToolFacts.

(** Once the parameters are valid and the agent is found, [execute]
    runs the executor on the agent's content and on the trimmed prompt
    followed by the output instructions of the call (the default ones
    when the call gives none or an empty string), and answers with the
    formatted result, or with an error response when the executor
    rejects. *)
Theorem execute_runs_composed_params env t params v agent :
  validateParams params = Ok v ->
  AgentManager.getAgent (fs env) (DynamicAgentTool.agentName t) = Ok (Some agent) ->
  execute env t params =
  match executeAgent env (execution_params_for v agent) with
  | Ok r =>
      let t' := updateExecutionStats (now env) t (executionTime r) in
      (formatExecutionResponse t' r (Some (generateRequestId env t))
         (AgentManager.agentType agent) (AgentManager.model agent), t')
  | Throw e =>
      (createErrorResponse t (str "Agent execution failed: " ++ error_message e), t)
  end /\
  (output_instructions v = None \/ output_instructions v = Some [] ->
   ep_prompt (execution_params_for v agent)
   = prompt v ++ [LF; LF] ++ str "[Output Instructions]" ++ [LF]
     ++ DEFAULT_OUTPUT_INSTRUCTIONS).
Proof.
  intros Hv Ha. split.
  - unfold execute, execute_try. rewrite Hv. cbn [bind]. rewrite Ha. cbn [bind].
    unfold execution_params_for.
    match goal with
    | |- context [executeAgent env ?ep] => destruct (executeAgent env ep) as [r|e]
    end; reflexivity.
  - intros [H|H]; unfold execution_params_for; simpl; rewrite H; reflexivity.
Qed.

Lemma execute_runs_composed_params_witness :
  fst (execute (mkEnv colliding_directory broken_executor 0 (str "1_x"))
         (new 0 (str "my-agent") (str "My Agent")) (prompt_only (str "check foo.ts")))
  = createErrorResponse (new 0 (str "my-agent") (str "My Agent"))
      (str "Agent execution failed: spawn cursor-agent ENOENT").
Proof.
  destruct (@execute_runs_composed_params
              (mkEnv colliding_directory broken_executor 0 (str "1_x"))
              (new 0 (str "my-agent") (str "My Agent")) (prompt_only (str "check foo.ts"))
              (mkParams (str "check foo.ts") None None None) my_agent_hyphen
              eq_refl eq_refl) as [H _].
  rewrite H. reflexivity.
Defined.


Example failed_run_is_counted :
  let res := execute (mkEnv colliding_directory failing_executor 7 (str "1_x"))
               (new 0 (str "my-agent") (str "My Agent")) (prompt_only (str "check foo.ts")) in
  isError (fst res) = true /\
  content (fst res) = [mkText (str "text") (str "Execution error")] /\
  getExecutionStats (snd res) = mkStats 1 50 7.
Proof. vm_compute. repeat split. Qed.




End ExecuteFacts.

(** ** More on the loader *)

Module LoaderMore.
Import Js JsFacts TrimFacts AgentManager Fixtures Notions LoaderFacts.

Lemma In_get {V} (m : Map.t V) k v :
  NoDup (Map.keys m) -> In (k, v) m -> Map.get k m = Some v.
Proof.
  induction m as [|[k' v'] m IH]; simpl; [contradiction|].
  intros Hnd Hin. inversion Hnd as [|? ? Hnot Hnd']; subst.
  unfold Map.get in *. simpl.
  destruct Hin as [[= -> ->]|Hin].
  - now rewrite eqs_refl.
  - destruct (eqs k' k) eqn:E; [|now apply IH].
    apply eqs_true_iff in E. subst k'. exfalso. apply Hnot.
    change k with (fst (k, v)). now apply in_map.
Qed.

Lemma load_files_NoDup files : forall m,
  NoDup (Map.keys m) -> NoDup (Map.keys (load_files files m)).
Proof.
  induction files as [|f files IH]; intros m Hm; simpl; [assumption|].
  destruct (loadAgentFromFile f); apply IH; auto. now apply NoDup_keys_set.
Qed.

Lemma load_files_app l1 l2 : forall m,
  load_files (l1 ++ l2) m = load_files l2 (load_files l1 m).
Proof.
  induction l1 as [|f l1 IH]; intros m; simpl; [reflexivity|].
  destruct (loadAgentFromFile f); apply IH.
Qed.

Lemma load_files_get_other files k : forall m,
  (forall g b, In g files -> loadAgentFromFile g = Some b -> name b <> k) ->
  Map.get k (load_files files m) = Map.get k m.
Proof.
  induction files as [|f files IH]; intros m H; simpl; [reflexivity|].
  destruct (loadAgentFromFile f) as [b|] eqn:E.
  - rewrite IH by (intros; eapply H; [right|]; eauto).
    apply get_set_other. eapply H; [left; reflexivity|exact E].
  - apply IH. intros; eapply H; [right|]; eauto.
Qed.

(** The loaded map: distinct keys, each the name of its definition. *)
Lemma loaded_map fs m :
  loadAgentsFromDirectory fs = Ok m ->
  NoDup (Map.keys m) /\ keyed_by_name m.
Proof.
  unfold loadAgentsFromDirectory. destruct (readdir fs); [|discriminate].
  intros [= <-]. split.
  - apply load_files_NoDup. constructor.
  - apply load_files_keyed. intros k b. discriminate.
Qed.

Lemma values_In {V} (m : Map.t V) v :
  In v (Map.values m) -> exists k, In (k, v) m.
Proof.
  unfold Map.values. intros H. apply in_map_iff in H as ([k v'] & <- & Hin). eauto.
Qed.

(** [getAgent] either refuses the name or looks it up. *)
Lemma getAgent_cases fs nm :
  (exists m, getAgent fs nm = Throw (ErrorObj m) /\
             startsWith (str "Invalid agent name: ") m = true) \/
  getAgent fs nm = (agents <- loadAgentsFromDirectory fs ;; Ok (Map.get nm agents)).
Proof.
  unfold getAgent, throwError.
  destruct nm as [|c nm]; [left; eexists; split; reflexivity|].
  destruct (len (trim (c :: nm)) =? 0); [left; eexists; split; reflexivity|].
  destruct (len (c :: nm) >? 255); [left; eexists; split; reflexivity|].
  destruct (existsb is_forbidden_char (c :: nm)); [left; eexists; split; reflexivity|].
  destruct (existsb is_control_char (c :: nm)); [left; eexists; split; reflexivity|].
  destruct (includes (str "..") (c :: nm) || includes (str "./") (c :: nm)
            || includes (str ".\") (c :: nm))%bool;
    [left; eexists; split; reflexivity|].
  right. reflexivity.
Qed.

(** The agent [getAgent] returns is one of the listing and carries the
    name asked for; an agent of the listing is what [getAgent] returns
    for its name, unless the name check refuses that name. *)
Theorem getAgent_agrees_with_listAgents fs :
  (forall nm a, getAgent fs nm = Ok (Some a) ->
     name a = nm /\ exists agents, listAgents fs = Ok agents /\ In a agents) /\
  (forall agents a, listAgents fs = Ok agents -> In a agents ->
     getAgent fs (name a) = Ok (Some a) \/
     exists m, getAgent fs (name a) = Throw (ErrorObj m) /\
               startsWith (str "Invalid agent name: ") m = true).
Proof.
  split.
  - intros nm a H.
    destruct (getAgent_cases fs nm) as [(m & Hm & _)|Hc]; [congruence|].
    rewrite Hc in H. unfold listAgents.
    destruct (loadAgentsFromDirectory fs) as [agents|] eqn:E; [|discriminate].
    simpl in H. injection H as H.
    destruct (loaded_map _ E) as [_ Hk]. split; [now apply Hk|].
    eexists. split; [reflexivity|].
    apply get_In in H. unfold Map.values.
    change a with (snd (nm, a)). now apply in_map.
  - intros agents a Hl Hin. unfold listAgents in Hl.
    destruct (loadAgentsFromDirectory fs) as [m|] eqn:E; [|discriminate].
    simpl in Hl. injection Hl as <-.
    destruct (loaded_map _ E) as [Hnd Hk].
    destruct (values_In _ _ Hin) as [k Hka].
    pose proof (In_get _ _ _ Hnd Hka) as Hget.
    pose proof (Hk _ _ Hget) as Hname. subst k.
    destruct (getAgent_cases fs (name a)) as [Hbad|Hc]; [right; exact Hbad|].
    left. rewrite Hc, E. simpl. now rewrite Hget.
Qed.

Lemma getAgent_agrees_with_listAgents_witness :
  getAgent colliding_directory (str "my-agent") = Ok (Some my_agent_hyphen) /\
  exists m, getAgent colliding_directory (str "my agent") = Throw (ErrorObj m).
Proof.
  destruct (getAgent_agrees_with_listAgents colliding_directory) as [_ H].
  split.
  - destruct (H [my_agent_underscore; my_agent_space; my_agent_hyphen] my_agent_hyphen)
      as [Hok|(m & Hm & _)].
    + vm_compute. reflexivity.
    + right. right. left. reflexivity.
    + exact Hok.
    + vm_compute in Hm. discriminate Hm.
  - destruct (H [my_agent_underscore; my_agent_space; my_agent_hyphen] my_agent_space)
      as [Hok|(m & Hm & _)].
    + vm_compute. reflexivity.
    + right. left. reflexivity.
    + vm_compute in Hok. discriminate Hok.
    + exists m. exact Hm.
Defined.

(** No two agents of a listing have the same name. *)
Theorem listAgents_names_distinct fs agents :
  listAgents fs = Ok agents -> NoDup (List.map name agents).
Proof.
  unfold listAgents. intros H.
  destruct (loadAgentsFromDirectory fs) as [m|] eqn:E; [|discriminate].
  simpl in H. injection H as <-.
  destruct (loaded_map _ E) as [Hnd Hk].
  replace (List.map name (Map.values m)) with (Map.keys m); [exact Hnd|].
  unfold Map.values, Map.keys. rewrite map_map. apply map_ext_in.
  intros [k a] Hin. simpl. symmetry. apply Hk. now apply In_get.
Qed.

Lemma listAgents_names_distinct_witness :
  NoDup [str "my_agent"; str "my agent"; str "my-agent"].
Proof.
  exact (@listAgents_names_distinct colliding_directory
           [my_agent_underscore; my_agent_space; my_agent_hyphen] eq_refl).
Defined.

Lemma load_files_filter files : forall m,
  load_files (filter is_agent_file files) m = load_files (filter loads files) m.
Proof.
  induction files as [|f files IH]; intros m; simpl; [reflexivity|].
  unfold loads at 1.
  destruct (is_agent_file f) eqn:Ef; simpl; [|apply IH].
  destruct (loadAgentFromFile f) as [a|] eqn:El; simpl; [|apply IH].
  rewrite El. apply IH.
Qed.

Lemma filter_loads_agent_files files :
  filter is_agent_file (filter loads files) = filter loads files.
Proof.
  induction files as [|f files IH]; simpl; [reflexivity|].
  destruct (loads f) eqn:E; simpl; [|exact IH].
  unfold loads in E. apply andb_true_iff in E as [E _]. rewrite E. now f_equal.
Qed.

(** The listing does not depend on the entries of the directory that
    are not [.md] or [.txt] files or that cannot be read: taking them
    away changes nothing. *)
Theorem listAgents_ignores_other_entries dir files :
  listAgents (mkFileSystem dir (Ok files))
  = listAgents (mkFileSystem dir (Ok (filter loads files))).
Proof.
  unfold listAgents, loadAgentsFromDirectory. simpl.
  fold is_agent_file.
  change (fun f : FileEntry =>
            (endsWith (str ".md") (fileName f) || endsWith (str ".txt") (fileName f))%bool)
    with is_agent_file.
  now rewrite filter_loads_agent_files, load_files_filter.
Qed.

Example only_other_files_lists_nothing :
  listAgents (directory [file "readme.pdf" (str "x"); file "config.json" (str "{}");
                         mkFileEntry (str "locked.md") (str "/agents/locked.md")
                           (Throw (ErrorObj (str "EACCES: permission denied"))) (Ok 0)])
  = Ok [].
Proof. reflexivity. Qed.

(** When two files give the same name, the later one is the one
    listed. *)
Theorem later_file_wins fs l1 f l2 a :
  readdir fs = Ok (l1 ++ f :: l2) ->
  is_agent_file f = true ->
  loadAgentFromFile f = Some a ->
  (forall g b, In g l2 -> is_agent_file g = true -> loadAgentFromFile g = Some b ->
               name b <> name a) ->
  exists agents,
    listAgents fs = Ok agents /\ In a agents /\
    forall b, In b agents -> name b = name a -> b = a.
Proof.
  intros Hdir Hf Hload Hlater.
  unfold listAgents, loadAgentsFromDirectory. rewrite Hdir. cbn [bind].
  change (fun f : FileEntry =>
            (endsWith (str ".md") (fileName f) || endsWith (str ".txt") (fileName f))%bool)
    with is_agent_file.
  set (m := load_files (filter is_agent_file (l1 ++ f :: l2)) Map.empty).
  assert (Hget : Map.get (name a) m = Some a).
  { unfold m. rewrite filter_app. cbn [filter]. rewrite Hf.
    rewrite load_files_app. cbn [load_files]. rewrite Hload.
    rewrite load_files_get_other; [apply get_set_same|].
    intros g b Hg Hb. apply filter_In in Hg as [Hg Hag]. eauto. }
  assert (Hnd : NoDup (Map.keys m)) by (apply load_files_NoDup; constructor).
  assert (Hk : keyed_by_name m)
    by (apply load_files_keyed; intros k b; discriminate).
  exists (Map.values m). split; [reflexivity|]. split.
  - apply get_In in Hget. unfold Map.values. change a with (snd (name a, a)).
    now apply in_map.
  - intros b Hb Hname. destruct (values_In _ _ Hb) as [k Hkb].
    pose proof (In_get _ _ _ Hnd Hkb) as Hgb.
    pose proof (Hk _ _ Hgb). subst k. rewrite Hname in Hgb. congruence.
Qed.

Lemma later_file_wins_witness :
  exists agents,
    listAgents (directory [helper_first; helper_second]) = Ok agents /\
    List.map content agents = [str "Second."].
Proof.
  destruct (@later_file_wins
              (directory [helper_first; helper_second]) [helper_first] helper_second []
              (mkAgentDefinition (str "helper") (str "Second.") (str "Second.")
                 (str "/agents/b.md") 1735689600000 None None None None None)
              eq_refl eq_refl eq_refl (fun g b H => match H with end))
    as (agents & Hl & _).
  exists agents. split; [exact Hl|].
  vm_compute in Hl. injection Hl as <-. reflexivity.
Defined.

End LoaderMore.

(** ** Names and lines at the edges *)

Module LoaderEdge.
Import Js JsFacts TrimFacts AgentManager Fixtures Notions ToolFacts LoaderMore.

Lemma tool_char_is_harmless (c : char16) :
  DynamicAgentTool.is_tool_char c = true ->
  is_forbidden_char c = false /\ is_control_char c = false /\
  is_space c = false /\ N.eqb 46 c = false.
Proof.
  intros H. apply is_tool_char_alphabet in H.
  assert (Hall : forallb (fun x => negb (is_forbidden_char x) && negb (is_control_char x)
                                   && negb (is_space x) && negb (N.eqb 46 x))%bool
                         tool_alphabet = true) by (vm_compute; reflexivity).
  rewrite forallb_forall in Hall. specialize (Hall c H).
  repeat (apply andb_true_iff in Hall as [Hall ?]).
  repeat split; now apply negb_true_iff.
Qed.

Lemma existsb_none {A} (p q : A -> bool) (l : list A) :
  (forall x, p x = true -> q x = false) ->
  forallb p l = true -> existsb q l = false.
Proof.
  intros H. induction l as [|x l IH]; simpl; [reflexivity|].
  intros Hl. apply andb_true_iff in Hl as [Hx Hl].
  now rewrite (H _ Hx), IH.
Qed.

Lemma includes_needs_head (c : char16) (p s : jstring) :
  existsb (N.eqb c) s = false -> includes (c :: p) s = false.
Proof.
  induction s as [|x s IH]; simpl; [reflexivity|].
  intros H. apply orb_false_iff in H as [Hx Hs].
  rewrite Hx. simpl. now apply IH.
Qed.

(** A name of letters, digits, underscores and hyphens, not empty and
    of at most 255 code units, always passes the name check: [getAgent]
    goes on to the directory and looks the name up. *)
Theorem getAgent_accepts_plain_names fs nm :
  nm <> [] -> len nm <= 255 ->
  forallb DynamicAgentTool.is_tool_char nm = true ->
  getAgent fs nm = (agents <- loadAgentsFromDirectory fs ;; Ok (Map.get nm agents)).
Proof.
  intros Hne Hlen Hall. unfold getAgent.
  destruct nm as [|c nm]; [contradiction|].
  assert (Htrim : trim (c :: nm) <> []).
  { intros E. apply trim_nil_iff in E. simpl in E, Hall.
    apply andb_true_iff in E as [E _]. apply andb_true_iff in Hall as [Hc _].
    apply tool_char_is_harmless in Hc as (_ & _ & Hs & _). congruence. }
  destruct (len (trim (c :: nm)) =? 0) eqn:E0.
  { apply Z.eqb_eq in E0. unfold len in E0.
    destruct (trim (c :: nm)); [contradiction|simpl in E0; lia]. }
  apply gtb_false_le in Hlen. rewrite Hlen.
  rewrite (existsb_none _ is_forbidden_char _
             (fun x H => proj1 (tool_char_is_harmless x H)) Hall).
  rewrite (existsb_none _ is_control_char _
             (fun x H => proj1 (proj2 (tool_char_is_harmless x H))) Hall).
  assert (Hdot : existsb (N.eqb 46) (c :: nm) = false).
  { apply (existsb_none _ (N.eqb 46) _
             (fun x H => proj2 (proj2 (proj2 (tool_char_is_harmless x H)))) Hall). }
  change (str "..") with (46%N :: str ".").
  change (str "./") with (46%N :: str "/").
  change (str ".\") with (46%N :: str "\").
  rewrite !(includes_needs_head _ _ _ Hdot). reflexivity.
Qed.

Lemma getAgent_accepts_plain_names_witness :
  getAgent (directory []) (str "code-reviewer_2") = Ok None.
Proof.
  rewrite (@getAgent_accepts_plain_names (directory []) (str "code-reviewer_2")).
  - reflexivity.
  - discriminate.
  - vm_compute. discriminate.
  - reflexivity.
Defined.

Lemma startsWith_app (p s : jstring) : startsWith p (p ++ s) = true.
Proof.
  induction p as [|c p IH]; simpl; [reflexivity|]. now rewrite N.eqb_refl.
Qed.

Lemma endsWith_app (p s : jstring) : endsWith p (s ++ p) = true.
Proof. unfold endsWith. rewrite rev_app_distr. apply startsWith_app. Qed.

Lemma firstn_drop_suffix (s p : jstring) (n : nat) :
  List.length p = n -> firstn (List.length (s ++ p) - n) (s ++ p) = s.
Proof.
  intros <-. rewrite length_app, Nat.add_sub.
  rewrite firstn_app, Nat.sub_diag, firstn_all. simpl. apply app_nil_r.
Qed.

Lemma strip_extension_md (n : jstring) : strip_extension (n ++ str ".md") = n.
Proof.
  unfold strip_extension. rewrite endsWith_app. now apply firstn_drop_suffix.
Qed.

Lemma strip_extension_txt (n : jstring) : strip_extension (n ++ str ".txt") = n.
Proof.
  unfold strip_extension.
  assert (E : endsWith (str ".md") (n ++ str ".txt") = false).
  { unfold endsWith. rewrite rev_app_distr. reflexivity. }
  rewrite E, endsWith_app. now apply firstn_drop_suffix.
Qed.

(** A readable file [n.md] or [n.txt] whose text does not start with
    three hyphens defines the agent [n]: the whole text is its content,
    the description is taken from the text, and it has no model, color,
    tools or engine of its own. *)
Theorem plain_file_defines_agent (n path text : jstring) (mtime : Z) (ext : jstring) :
  ext = str ".md" \/ ext = str ".txt" ->
  startsWith (str "---") text = false ->
  loadAgentFromFile (mkFileEntry (n ++ ext) path (Ok text) (Ok mtime))
  = Some (mkAgentDefinition n (extractDescription text) text path mtime
            None None None None None).
Proof.
  intros Hext Hstart. unfold loadAgentFromFile, parseFrontmatter, match_frontmatter.
  cbn [readFile stat_mtime fileName entryPath]. rewrite Hstart.
  cbn [fm_name fm_description fm_model fm_color fm_tools fm_agentType emptyFrontmatter
       or_else when_truthy option_map].
  destruct Hext as [-> | ->]; rewrite ?strip_extension_md, ?strip_extension_txt;
    reflexivity.
Qed.

Lemma plain_file_defines_agent_witness :
  loadAgentFromFile (mkFileEntry (str "code-reviewer.md") (str "/agents/code-reviewer.md")
                       (Ok (str "# Code Reviewer")) (Ok 5))
  = Some (mkAgentDefinition (str "code-reviewer") (str "Code Reviewer")
            (str "# Code Reviewer") (str "/agents/code-reviewer.md") 5
            None None None None None).
Proof.
  exact (@plain_file_defines_agent (str "code-reviewer") (str "/agents/code-reviewer.md")
           (str "# Code Reviewer") 5 (str ".md") (or_introl eq_refl) eq_refl).
Defined.

Lemma span_snoc_false (p : char16 -> bool) (l : jstring) (c : char16) :
  p c = false ->
  span p (l ++ [c]) = (fst (span p l), snd (span p l) ++ [c]).
Proof.
  intros Hc. induction l as [|x l IH]; simpl.
  - now rewrite Hc.
  - destruct (p x); [|reflexivity].
    rewrite IH. destruct (span p l). reflexivity.
Qed.

Lemma span_snoc_true (p : char16 -> bool) (l : jstring) (c : char16) :
  p c = true ->
  span p (l ++ [c]) =
  match snd (span p l) with
  | [] => (l ++ [c], [])
  | _ :: _ => (fst (span p l), snd (span p l) ++ [c])
  end.
Proof.
  intros Hc. induction l as [|x l IH]; simpl.
  - now rewrite Hc.
  - destruct (p x) eqn:Ex; [|reflexivity].
    rewrite IH. destruct (span p l) as [a b]. simpl. destruct b; reflexivity.
Qed.

Lemma forallb_snoc_false {A} (p : A -> bool) (l : list A) (c : A) :
  p c = false -> forallb p (l ++ [c]) = false.
Proof.
  intros H. rewrite forallb_app. simpl. rewrite H. apply andb_false_r.
Qed.

(** A front-matter line that ends with a carriage return, as every
    line of a file with Windows line ends does, matches nothing: the
    line is skipped and the metadata stay as they were. *)
Theorem carriage_return_line_is_skipped (fm : Frontmatter) (line : jstring) :
  match_key_value (line ++ [CR]) = None /\ parse_line fm (line ++ [CR]) = fm.
Proof.
  assert (H : match_key_value (line ++ [CR]) = None).
  { unfold match_key_value.
    rewrite span_snoc_false by reflexivity.
    destruct (span is_word line) as [key r1]. cbn [fst snd].
    destruct key as [|k key]; [reflexivity|].
    destruct r1 as [|c r2]; [reflexivity|]. cbn [app].
    destruct (N.eqb c 58); [|reflexivity].
    rewrite span_snoc_true by reflexivity.
    destruct (span is_space r2) as [w v]. cbn [fst snd].
    destruct v as [|x v].
    - rewrite rev_app_distr. reflexivity.
    - change ((x :: v) ++ [CR]) with (x :: (v ++ [CR])).
      change (forallb (fun x0 => negb (is_line_terminator x0)) (x :: v ++ [CR]))
        with (negb (is_line_terminator x)
              && forallb (fun x0 => negb (is_line_terminator x0)) (v ++ [CR]))%bool.
      rewrite forallb_snoc_false by reflexivity.
      rewrite andb_false_r. reflexivity. }
  split; [exact H|]. unfold parse_line. now rewrite H.
Qed.

Example windows_front_matter_is_lost :
  fst (parseFrontmatter
         (str "---" ++ [CR; LF] ++ str "name: helper" ++ [CR; LF]
          ++ str "model: opus" ++ [CR; LF] ++ str "---" ++ [CR; LF] ++ str "Body."))
  = emptyFrontmatter.
Proof. reflexivity. Qed.

End LoaderEdge.

(** ** More on the registry *)

Module RegistryMore.
Import Js JsFacts Fixtures McpServer Notions RegistryFacts LoaderMore.

Lemma get_Some_keys {V} (m : Map.t V) k v : Map.get k m = Some v -> In k (Map.keys m).
Proof.
  intros H. apply get_In in H. unfold Map.keys.
  change k with (fst (k, v)). now apply in_map.
Qed.


Lemma last_claimant T agents a :
  last_opt (claimants T agents) = Some a -> In a agents /\ toolName_of a = T.
Proof.
  intros E. apply last_opt_split in E as [l El].
  assert (Hin : In a (claimants T agents)) by (rewrite El; apply in_or_app; right; now left).
  apply filter_In in Hin as [Hin Heq]. apply eqs_true_iff in Heq. now split.
Qed.

Lemma claimed_iff T agents :
  In T (List.map toolName_of agents) <-> last_opt (claimants T agents) <> None.
Proof.
  split.
  - intros H E. apply in_map_iff in H as (a & <- & Hin).
    apply last_opt_nil_iff in E.
    pose proof (@claimants_In (toolName_of a) a agents Hin eq_refl) as Hc.
    rewrite E in Hc. contradiction.
  - intros H. destruct (last_opt (claimants T agents)) as [a|] eqn:E; [|contradiction].
    apply last_claimant in E as [Hin <-]. now apply in_map.
Qed.

(** The first [listTools] of a server: it builds the registry and shows
    it. *)
Lemma listTools_first_build env st agents :
  dynamicTools st = Map.empty ->
  AgentManager.listAgents (DynamicAgentTool.fs (tool_env env)) = Ok agents ->
  exists st1,
    initializeDynamicTools env st = (Ok tt, st1) /\
    listTools env st = (Ok (List.map descriptor (Map.values (dynamicTools st1))), st1) /\
    NoDup (Map.keys (dynamicTools st1)) /\
    forall T, Map.get T (dynamicTools st1)
              = option_map (tool_of env) (last_opt (claimants T agents)).
Proof.
  intros Hempty Hlist.
  destruct (initialize_from_empty env st Hempty Hlist)
    as (tn & st1 & extra & [Hn Ht Hk] & Hok & Htools & _).
  exists (snd (initializeDynamicTools env st)).
  unfold listTools, ensure_tools. rewrite Hempty.
  change (Map.size (@Map.empty DynamicAgentTool.tool) =? 0) with true. cbv iota.
  destruct (initializeDynamicTools env st) as [r s1]. cbn [fst snd] in *. subst r.
  rewrite Htools. repeat split; assumption.
Qed.



(** *** A build without collisions *)






End RegistryMore.

(** ** The log, later calls and statistics *)

Module ServerFacts.
Import Js JsFacts Fixtures McpServer Notions RegistryFacts LoaderMore RegistryMore.

Lemma logEntry_level lv msg md :
  (forall kv, In kv md -> fst kv <> str "level") ->
  Map.get (str "level") (logEntry lv msg md) = Some (JString (level_string lv)).
Proof.
  unfold logEntry. intros H.
  assert (G : forall (o : Map.t value),
             Map.get (str "level") o = Some (JString (level_string lv)) ->
             Map.get (str "level")
               (fold_left (fun o kv => Map.set (fst kv) (snd kv) o) md o)
             = Some (JString (level_string lv))).
  { induction md as [|kv md IH]; intros o Ho; simpl; [exact Ho|].
    apply IH; [intros; apply H; now right|].
    rewrite get_set_other; [exact Ho|]. apply H. now left. }
  apply G. reflexivity.
Qed.

Lemma log_admitted lv msg md st :
  (forall kv, In kv md -> fst kv <> str "level") ->
  exists extra,
    console (log lv msg md st) = console st ++ extra /\
    Forall (admitted (logLevel st)) extra.
Proof.
  intros H. rewrite log_console.
  destruct (logLevels lv >=? logLevels (logLevel st)) eqn:E; eexists; split;
    try reflexivity; [|constructor].
  constructor; [|constructor]. exists lv. split; [now apply logEntry_level|].
  rewrite Z.geb_leb in E. apply Z.leb_le in E. lia.
Qed.

(** Closes the side condition of [log_admitted] for the metadata
    written out in the source. *)
Ltac no_level_key :=
  let kv := fresh in let H := fresh in
  intros kv H; simpl in H;
  repeat (destruct H as [<-|H]; [vm_compute; discriminate|]); contradiction.

Lemma register_agents_log env agents : forall tn st,
  logLevel (snd (register_agents env agents tn st)) = logLevel st /\
  exists extra,
    console (snd (register_agents env agents tn st)) = console st ++ extra /\
    Forall (admitted (logLevel st)) extra.
Proof.
  induction agents as [|a rest IH]; intros tn st.
  - simpl. split; [reflexivity|]. exists []. now rewrite app_nil_r.
  - cbn [register_agents].
    destruct (Map.has _ (dynamicTools st)).
    + match goal with
      | |- context [match ?x with Ok _ => _ | Throw _ => _ end] => destruct x as [l|e]
      end.
      * match goal with
        | |- context [register_agents env rest ?tn1 (set_tool ?k ?t (log ?lv ?m ?md st))] =>
            destruct (IH tn1 (set_tool k t (log lv m md st))) as (Hl & extra & Hc & Ha);
            destruct (log_admitted lv m md st) as (e0 & Hc0 & Ha0); [no_level_key|]
        end.
        cbn [set_tool logLevel console] in *. rewrite log_level in *.
        split; [exact Hl|]. exists (e0 ++ extra).
        split; [rewrite Hc, Hc0, app_assoc; reflexivity|].
        apply Forall_app. now split.
      * cbn [snd]. split; [reflexivity|]. exists []. now rewrite app_nil_r.
    + match goal with
      | |- context [register_agents env rest ?tn1 (set_tool ?k ?t st)] =>
          destruct (IH tn1 (set_tool k t st)) as (Hl & extra & Hc & Ha)
      end.
      cbn [set_tool logLevel console] in *. split; [exact Hl|]. now exists extra.
Qed.

(** Whatever the registry and the directory are, a build only adds
    lines to the log, and every line it adds carries a level that is
    not below the configured one. *)
Theorem build_logs_above_level env st :
  logLevel (snd (initializeDynamicTools env st)) = logLevel st /\
  exists extra,
    console (snd (initializeDynamicTools env st)) = console st ++ extra /\
    Forall (admitted (logLevel st)) extra.
Proof.
  unfold initializeDynamicTools, initialize_try.
  set (st0 := log debug "Initializing dynamic agent tools" [] st).
  destruct (log_admitted debug "Initializing dynamic agent tools" [] st)
    as (e0 & Hc0 & Ha0); [no_level_key|]. fold st0 in Hc0.
  assert (Hl0 : logLevel st0 = logLevel st) by apply log_level.
  destruct (AgentManager.listAgents _) as [agents|e].
  - destruct (register_agents_log env agents Map.empty st0) as (Hl1 & e1 & Hc1 & Ha1).
    destruct (register_agents env agents Map.empty st0) as [[tn|e] st1]; cbn [snd] in *.
    + set (collisions := filter _ (Map.entries tn)).
      set (st2 := if Z.of_nat (List.length collisions) >? 0 then _ else st1).
      assert (H2 : logLevel st2 = logLevel st /\
                   exists e2, console st2 = console st1 ++ e2 /\
                              Forall (admitted (logLevel st)) e2).
      { unfold st2. destruct (_ >? 0).
        - rewrite log_level. split; [congruence|].
          match goal with
          | |- context [log ?lv ?m ?md st1] =>
              destruct (log_admitted lv m md st1) as (e2 & Hc2 & Ha2); [no_level_key|]
          end.
          exists e2. split; [exact Hc2|]. rewrite <- Hl0, <- Hl1. exact Ha2.
        - split; [congruence|]. exists []. now rewrite app_nil_r. }
      destruct H2 as (Hl2 & e2 & Hc2 & Ha2).
      cbn [snd]. rewrite log_level. split; [exact Hl2|].
      match goal with
      | |- context [log ?lv ?m ?md st2] =>
          destruct (log_admitted lv m md st2) as (e3 & Hc3 & Ha3); [no_level_key|]
      end.
      exists (e0 ++ e1 ++ e2 ++ e3).
      split; [rewrite Hc3, Hc2, Hc1, Hc0, <- !app_assoc; reflexivity|].
      rewrite Hl0 in Ha1. rewrite Hl2 in Ha3.
      repeat (apply Forall_app; split); assumption.
    + cbn [clear_tools logLevel console]. rewrite log_level. split; [congruence|].
      match goal with
      | |- context [log ?lv ?m ?md st1] =>
          destruct (log_admitted lv m md st1) as (e3 & Hc3 & Ha3); [no_level_key|]
      end.
      exists (e0 ++ e1 ++ e3).
      split; [rewrite Hc3, Hc1, Hc0, <- !app_assoc; reflexivity|].
      rewrite Hl0 in Ha1. rewrite Hl1, Hl0 in Ha3.
      repeat (apply Forall_app; split); assumption.
  - cbn [snd clear_tools logLevel console]. rewrite log_level. split; [exact Hl0|].
    match goal with
    | |- context [log ?lv ?m ?md st0] =>
        destruct (log_admitted lv m md st0) as (e3 & Hc3 & Ha3); [no_level_key|]
    end.
    exists (e0 ++ e3). split; [rewrite Hc3, Hc0, <- app_assoc; reflexivity|].
    rewrite Hl0 in Ha3. apply Forall_app. now split.
Qed.

(** Once a build has registered a tool, the registry is kept: later
    [listTools] calls show the same tools and leave the server as it
    is, whatever has become of the directory. *)
Theorem registry_is_built_once env st agents :
  dynamicTools st = Map.empty ->
  AgentManager.listAgents (DynamicAgentTool.fs (tool_env env)) = Ok agents ->
  agents <> [] ->
  forall env2,
    listTools env2 (snd (listTools env st))
    = (fst (listTools env st), snd (listTools env st)).
Proof.
  intros Hempty Hlist Hne env2.
  destruct (listTools_first_build env st Hempty Hlist) as (st1 & _ & -> & _ & Ht).
  cbn [fst snd]. destruct agents as [|a agents]; [contradiction|].
  assert (Hin : Map.get (toolName_of a) (dynamicTools st1) <> None).
  { rewrite Ht. intros E.
    assert (Hc : last_opt (claimants (toolName_of a) (a :: agents)) <> None)
      by (apply claimed_iff; now left).
    destruct (last_opt (claimants (toolName_of a) (a :: agents))); [discriminate|].
    now apply Hc. }
  unfold listTools, ensure_tools.
  destruct (dynamicTools st1) as [|kv m] eqn:E; [now contradiction Hin|].
  unfold Map.size. cbn [List.length].
  replace (Z.of_nat (S (List.length m)) =? 0) with false
    by (symmetry; apply Z.eqb_neq; lia).
  rewrite E. reflexivity.
Qed.

Lemma registry_is_built_once_witness :
  List.map (fun d => fst (fst d))
    match fst (listTools (server_env missing_directory)
                 (snd (listTools (server_env colliding_directory) (fresh_server info)))) with
    | Ok tools => tools
    | Throw _ => []
    end
  = [str "agent_my_agent"; str "agent_my-agent"].
Proof.
  rewrite (@registry_is_built_once (server_env colliding_directory) (fresh_server info)
             [my_agent_underscore; my_agent_space; my_agent_hyphen]
             eq_refl RegistryFacts.colliding_directory_listing
             ltac:(discriminate) (server_env missing_directory)).
  vm_compute. reflexivity.
Defined.

(** On a server that has not built its registry, a call under a name
    that no agent of the listing sanitizes to is thrown back as an
    unknown tool; a call under any other name is answered. *)
Theorem callTool_unknown_tool env st agents T params :
  dynamicTools st = Map.empty ->
  AgentManager.listAgents (DynamicAgentTool.fs (tool_env env)) = Ok agents ->
  (~ In T (List.map toolName_of agents) ->
   fst (callTool env T params st) = Throw (ErrorObj (str "Unknown tool: " ++ T))) /\
  (In T (List.map toolName_of agents) ->
   exists a, In a agents /\ toolName_of a = T /\
     fst (callTool env T params st)
     = Ok (fst (DynamicAgentTool.execute (tool_env env) (tool_of env a) params))).
Proof.
  intros Hempty Hlist.
  destruct (listTools_first_build env st Hempty Hlist) as (s1 & Hinit & _ & _ & Ht).
  unfold callTool, ensure_tools. rewrite Hempty.
  change (Map.size (@Map.empty DynamicAgentTool.tool) =? 0) with true. cbv iota.
  rewrite Hinit, Ht. split.
  - intros Hnot. destruct (last_opt (claimants T agents)) eqn:E; [|reflexivity].
    exfalso. apply Hnot, claimed_iff. rewrite E. discriminate.
  - intros Hin. apply claimed_iff in Hin.
    destruct (last_opt (claimants T agents)) as [a|] eqn:E; [|contradiction].
    apply last_claimant in E as [Ha HT].
    exists a. split; [exact Ha|]. split; [exact HT|]. cbn [option_map].
    destruct (DynamicAgentTool.execute (tool_env env) (tool_of env a) params).
    reflexivity.
Qed.

Lemma callTool_unknown_tool_witness :
  fst (callTool (server_env colliding_directory) (str "agent_nobody") (JObject [])
         (fresh_server info))
  = Throw (ErrorObj (str "Unknown tool: agent_nobody")).
Proof.
  destruct (@callTool_unknown_tool (server_env colliding_directory) (fresh_server info)
              [my_agent_underscore; my_agent_space; my_agent_hyphen]
              (str "agent_nobody") (JObject [])
              eq_refl RegistryFacts.colliding_directory_listing) as [H _].
  apply H. simpl. intuition discriminate.
Defined.

(** A call of a registered tool is answered by that tool's [execute];
    it replaces that tool by the tool with its statistics updated and
    touches no other tool, nor the order of the registry, nor the
    log. *)
Theorem callTool_touches_one_tool env st T tool params :
  Map.get T (dynamicTools st) = Some tool ->
  let res := DynamicAgentTool.execute (tool_env env) tool params in
  let st' := snd (callTool env T params st) in
  fst (callTool env T params st) = Ok (fst res) /\
  Map.get T (dynamicTools st') = Some (snd res) /\
  (forall T', T' <> T -> Map.get T' (dynamicTools st') = Map.get T' (dynamicTools st)) /\
  Map.keys (dynamicTools st') = Map.keys (dynamicTools st) /\
  console st' = console st.
Proof.
  intros Hget res st'. subst res st'.
  unfold callTool, ensure_tools.
  destruct (dynamicTools st) as [|kv m] eqn:E; [discriminate|].
  unfold Map.size. cbn [List.length].
  replace (Z.of_nat (S (List.length m)) =? 0) with false
    by (symmetry; apply Z.eqb_neq; lia).
  rewrite E, Hget.
  destruct (DynamicAgentTool.execute (tool_env env) tool params) as [resp t'].
  cbn [fst snd set_tool dynamicTools console]. rewrite E.
  split; [reflexivity|]. split; [apply get_set_same|].
  split; [intros T' Hne; apply get_set_other; congruence|].
  split; [eapply keys_set_known, Hget|reflexivity].
Qed.

Lemma callTool_touches_one_tool_witness :
  option_map DynamicAgentTool.getExecutionStats
    (Map.get (str "agent_my-agent")
       (dynamicTools
          (snd (callTool (server_env colliding_directory) (str "agent_my-agent")
                  (prompt_only (str "check foo.ts")) stale_server))))
  = Some (DynamicAgentTool.mkStats 1 100 1735689600500).
Proof.
  destruct (@callTool_touches_one_tool (server_env colliding_directory) stale_server
              (str "agent_my-agent")
              (DynamicAgentTool.new 1735689500000 (str "my-agent") (str "My Agent"))
              (prompt_only (str "check foo.ts")) eq_refl) as (_ & H & _).
  rewrite H. vm_compute. reflexivity.
Defined.

Lemma keys_notin_get {V} (m : Map.t V) k : ~ In k (Map.keys m) -> Map.get k m = None.
Proof.
  intros H. destruct (Map.get k m) eqn:E; [|reflexivity].
  exfalso. eapply H, get_Some_keys, E.
Qed.

Lemma stats_fold (l : Map.t DynamicAgentTool.tool) : forall m0 k,
  NoDup (Map.keys l) ->
  Map.get k
    (fold_left (fun m kv => Map.set (fst kv) (DynamicAgentTool.getExecutionStats (snd kv)) m)
               l m0)
  = match Map.get k l with
    | Some t => Some (DynamicAgentTool.getExecutionStats t)
    | None => Map.get k m0
    end.
Proof.
  induction l as [|[k1 t1] l IH]; intros m0 k Hnd; [reflexivity|].
  inversion Hnd as [|? ? Hnot Hnd']; subst.
  cbn [fold_left fst snd]. rewrite IH by exact Hnd'.
  unfold Map.get at 3. cbn [assoc].
  destruct (eqs k1 k) eqn:E.
  - apply eqs_true_iff in E. subst k1.
    rewrite (@keys_notin_get _ l k Hnot). apply get_set_same.
  - fold (Map.get k l). destruct (Map.get k l); [reflexivity|].
    apply get_set_other. now apply eqs_false_iff.
Qed.

(** The server statistics show, under each tool name, the statistics
    of the tool registered under it, and nothing else. *)
Theorem getServerStats_lookup st T :
  NoDup (Map.keys (dynamicTools st)) ->
  Map.get T (getServerStats st)
  = option_map DynamicAgentTool.getExecutionStats (Map.get T (dynamicTools st)).
Proof.
  intros Hnd. unfold getServerStats, Map.entries. rewrite stats_fold by exact Hnd.
  destruct (Map.get T (dynamicTools st)); reflexivity.
Qed.

Lemma getServerStats_lookup_witness :
  Map.get (str "agent_my-agent") (getServerStats stale_server)
  = Some (DynamicAgentTool.mkStats 0 0 1735689500000).
Proof.
  rewrite (@getServerStats_lookup stale_server (str "agent_my-agent")).
  - reflexivity.
  - repeat constructor. simpl. tauto.
Defined.

End ServerFacts.

(** ** Resources, configuration and an unreadable directory *)

Module ResourceFacts.
Import Js JsFacts TrimFacts Fixtures McpServer Notions RegistryFacts LoaderMore.

(** Through the server, reading a resource succeeds for the one URI
    [agents://list], with a single text item, and for nothing else:
    every other URI, the empty one included, is thrown back as
    invalid. *)
Theorem readResource_only_agent_list env iso (u : jstring) :
  (u = str "agents://list" ->
   exists t, readResource env iso u
             = Ok [AgentResources.mkContent (str "text") t (str "agents://list")]) /\
  (u <> str "agents://list" ->
   readResource env iso u = Throw (ErrorObj (str "Invalid resource URI: " ++ u))).
Proof.
  split.
  - intros ->. unfold readResource, AgentResources.readResource.
    cbn [AgentResources.isValidResourceUri str negb].
    change (AgentResources.isValidResourceUri (str "agents://list")) with true.
    cbn [negb]. change (eqs (str "agents://list") (str "agents://list")) with true.
    cbv iota. unfold AgentResources.getAgentListContent, agentResources.
    cbn [AgentResources.agentManager].
    destruct (AgentManager.listAgents _) as [[|a l]|e]; eexists; reflexivity.
  - intros Hne. unfold readResource, AgentResources.isValidResourceUri.
    destruct u as [|c u]; [reflexivity|].
    apply eqs_false_iff in Hne. rewrite Hne. reflexivity.
Qed.

Lemma readResource_only_agent_list_witness :
  readResource (server_env colliding_directory) iso_2025 (str "agents://my-agent")
  = Throw (ErrorObj (str "Invalid resource URI: agents://my-agent")).
Proof.
  destruct (readResource_only_agent_list (server_env colliding_directory) iso_2025
              (str "agents://my-agent")) as [_ H].
  apply H. discriminate.
Defined.

Lemma fold_left_append {A} (f : A -> jstring) (l : list A) : forall init,
  fold_left (fun t a => t ++ f a) l init = init ++ List.concat (List.map f l).
Proof.
  induction l as [|a l IH]; intros init; simpl; [now rewrite app_nil_r|].
  now rewrite IH, app_assoc.
Qed.

Lemma startsWith_extend (p s t : jstring) :
  startsWith p s = true -> startsWith p (s ++ t) = true.
Proof.
  revert s. induction p as [|c p IH]; intros [|x s]; simpl; try reflexivity;
    try discriminate.
  intros H. apply andb_true_iff in H as [H1 H2]. now rewrite H1, IH.
Qed.

Lemma includes_extend (p s t : jstring) :
  includes p s = true -> includes p (s ++ t) = true.
Proof.
  induction s as [|x s IH]; simpl.
  - rewrite orb_false_r. intros H. destruct p; [|discriminate].
    destruct t; reflexivity.
  - intros H. apply orb_true_iff in H as [H|H].
    + change (x :: s ++ t) with ((x :: s) ++ t).
      rewrite (startsWith_extend _ _ t H). reflexivity.
    + rewrite (IH H). apply orb_true_r.
Qed.

Lemma includes_skip (p s t : jstring) :
  includes p t = true -> includes p (s ++ t) = true.
Proof.
  intros H. induction s as [|x s IH]; simpl; [exact H|].
  rewrite IH. apply orb_true_r.
Qed.

Lemma includes_middle (p a b : jstring) : includes p (a ++ p ++ b) = true.
Proof.
  apply includes_skip, includes_extend.
  destruct p; simpl; [reflexivity|].
  rewrite N.eqb_refl. simpl.
  replace (startsWith p p) with true; [reflexivity|].
  symmetry. rewrite <- (app_nil_r p) at 2. apply LoaderEdge.startsWith_app.
Qed.

(** The text of the agent list, when there are agents: a header with
    their number, then one block per agent in the order of the listing.
    The block of an agent shows its name and the tool name it is
    registered under, the one [sanitizeToolName] gives. *)
Theorem agent_list_shows_tool_names rs fs agents :
  AgentResources.agentManager rs = Some fs ->
  AgentManager.listAgents fs = Ok agents ->
  agents <> [] ->
  exists t,
    AgentResources.getAgentListContent rs = AgentResources.list_content t /\
    t = AgentResources.list_header (List.length agents)
        ++ List.concat (List.map (AgentResources.agent_entry rs) agents) /\
    forall a, In a agents ->
      includes (str "## " ++ AgentManager.name a ++ [LF]) t = true /\
      includes (str "**Tool Name:** "
                ++ DynamicAgentTool.sanitizeToolName (AgentManager.name a) ++ [LF]) t
      = true.
Proof.
  intros Hm Hl Hne. unfold AgentResources.getAgentListContent. rewrite Hm, Hl.
  destruct agents as [|a0 agents]; [contradiction|].
  eexists. split; [reflexivity|]. split; [apply fold_left_append|].
  rewrite fold_left_append.
  intros a Hin. apply in_split in Hin as (l1 & l2 & ->).
  rewrite map_app, concat_app. cbn [List.map List.concat].
  split.
  - assert (E : exists post,
               AgentResources.agent_entry rs a
               = [] ++ (str "## " ++ AgentManager.name a ++ [LF]) ++ post).
    { unfold AgentResources.agent_entry. eexists.
      rewrite <- !app_assoc. reflexivity. }
    destruct E as [post ->].
    apply includes_skip, includes_skip, includes_extend, includes_middle.
  - assert (E : exists post,
               AgentResources.agent_entry rs a
               = (str "## " ++ AgentManager.name a ++ [LF]
                  ++ str "**Description:** " ++ AgentManager.description a ++ [LF])
                 ++ (str "**Tool Name:** "
                     ++ DynamicAgentTool.sanitizeToolName (AgentManager.name a) ++ [LF])
                 ++ post).
    { unfold AgentResources.agent_entry, DynamicAgentTool.sanitizeToolName. eexists.
      rewrite <- !app_assoc. reflexivity. }
    destruct E as [post ->].
    apply includes_skip, includes_skip, includes_extend, includes_middle.
Qed.

Lemma agent_list_shows_tool_names_witness :
  exists t,
    readResource (server_env colliding_directory) iso_2025 (str "agents://list")
    = Ok (AgentResources.list_content t) /\
    includes (str "**Tool Name:** agent_my_agent") t = true /\
    startsWith (str "Available Agents (3 total)") t = true.
Proof.
  destruct (@agent_list_shows_tool_names
              (agentResources (server_env colliding_directory) iso_2025)
              colliding_directory
              [my_agent_underscore; my_agent_space; my_agent_hyphen]
              eq_refl RegistryFacts.colliding_directory_listing ltac:(discriminate))
    as (t & Hc & Ht & _).
  exists t. split.
  - unfold readResource, AgentResources.readResource.
    change (AgentResources.isValidResourceUri (str "agents://list")) with true.
    cbn [negb]. change (eqs (str "agents://list") (str "agents://list")) with true.
    cbv iota. now rewrite Hc.
  - rewrite Ht. split; vm_compute; reflexivity.
Defined.

(** *** An unreadable directory *)

(** When the directory cannot be read, whatever the reason: the
    listing throws an error that names the configured directory, the
    agent list resource shows that error as its text, a server without
    tools stays without tools, and every call of a tool with valid
    parameters is answered with an error. *)
Theorem unreadable_directory env iso e :
  AgentManager.readdir (DynamicAgentTool.fs (tool_env env)) = Throw e ->
  let fs := DynamicAgentTool.fs (tool_env env) in
  let msg := str "Failed to load agents from directory: " ++ AgentManager.agentsDir fs in
  AgentManager.listAgents fs = Throw (ErrorObj msg) /\
  readResource env iso (str "agents://list")
    = Ok (AgentResources.list_content (str "Error loading agent list: " ++ msg)) /\
  (forall st, dynamicTools st = Map.empty ->
     fst (listTools env st) = Ok [] /\
     dynamicTools (snd (listTools env st)) = Map.empty) /\
  (forall t params v,
     DynamicAgentTool.validateParams params = Ok v ->
     DynamicAgentTool.isError (fst (DynamicAgentTool.execute (tool_env env) t params))
     = true /\
     snd (DynamicAgentTool.execute (tool_env env) t params) = t).
Proof.
  intros Hdir fs msg.
  assert (Hload : AgentManager.loadAgentsFromDirectory fs = Throw (ErrorObj msg)).
  { unfold AgentManager.loadAgentsFromDirectory. fold fs in Hdir. now rewrite Hdir. }
  assert (Hl : AgentManager.listAgents fs = Throw (ErrorObj msg)).
  { unfold AgentManager.listAgents. now rewrite Hload. }
  split; [exact Hl|]. split; [|split].
  - unfold readResource, AgentResources.readResource.
    change (AgentResources.isValidResourceUri (str "agents://list")) with true.
    cbn [negb]. change (eqs (str "agents://list") (str "agents://list")) with true.
    cbv iota. unfold AgentResources.getAgentListContent, agentResources.
    cbn [AgentResources.agentManager]. fold fs. now rewrite Hl.
  - intros st Hempty. unfold listTools, ensure_tools. rewrite Hempty.
    change (Map.size (@Map.empty DynamicAgentTool.tool) =? 0) with true. cbv iota.
    unfold initializeDynamicTools, initialize_try. fold fs. rewrite Hl.
    split; reflexivity.
  - intros t params v Hv.
    unfold DynamicAgentTool.execute, DynamicAgentTool.execute_try.
    rewrite Hv. cbn [bind]. fold fs.
    destruct (getAgent_cases fs (DynamicAgentTool.agentName t)) as [(m & -> & _)| ->].
    + split; reflexivity.
    + rewrite Hload. split; reflexivity.
Qed.

Lemma unreadable_directory_witness :
  fst (listTools (server_env missing_directory) (fresh_server info)) = Ok [] /\
  readResource (server_env missing_directory) iso_2025 (str "agents://list")
  = Ok (AgentResources.list_content
          (str "Error loading agent list: Failed to load agents from directory: /nowhere")).
Proof.
  destruct (@unreadable_directory (server_env missing_directory) iso_2025
              (ErrorObj (str "ENOENT: no such file or directory")) eq_refl)
    as (_ & Hr & Ht & _).
  split; [apply (Ht (fresh_server info) eq_refl)|exact Hr].
Defined.

(** *** The configuration check *)

(** A server is set up only with a name and a version that each have a
    code unit other than white space; the name is checked first. *)
Theorem validateConfig_accepts_iff (serverName serverVersion : jstring) :
  (validateConfig serverName serverVersion = Ok tt <->
   forallb is_space serverName = false /\ forallb is_space serverVersion = false) /\
  (forallb is_space serverName = true ->
   validateConfig serverName serverVersion = throwError "Server name cannot be empty") /\
  (forallb is_space serverName = false -> forallb is_space serverVersion = true ->
   validateConfig serverName serverVersion = throwError "Server version cannot be empty").
Proof.
  assert (H : forall s : jstring,
             (match s with [] => true | _ => false end || eqs (trim s) [])%bool
             = forallb is_space s).
  { intros s. destruct (forallb is_space s) eqn:E.
    - apply trim_nil_iff in E. rewrite E. apply orb_true_r.
    - destruct s as [|c s]; [discriminate|]. simpl orb.
      apply eqs_false_iff. intros Ht. apply trim_nil_iff in Ht. congruence. }
  unfold validateConfig. rewrite !H.
  destruct (forallb is_space serverName), (forallb is_space serverVersion);
    repeat split; intros; try discriminate; try reflexivity;
    repeat match goal with X : _ /\ _ |- _ => destruct X end; discriminate.
Qed.

Lemma validateConfig_accepts_iff_witness :
  validateConfig (str "  ") (str "1.0.0") = throwError "Server name cannot be empty".
Proof.
  destruct (validateConfig_accepts_iff (str "  ") (str "1.0.0")) as (_ & H & _).
  apply H. reflexivity.
Defined.

End ResourceFacts.
